(** * piston.resource: the request dispatch pipeline of django-piston

    A shallow embedding of [src/piston/resource.py]: the [Resource] class
    (authentication chain, method resolution, request sanitisation, error
    classification, emission) and the item-range resolver [get_range] nested
    in [Resource.__call__]. *)

From Stdlib Require Import ZArith Ascii String List Bool Lia.
From stdpp Require Import base option list strings gmap fin_maps pretty.

Local Open Scope string_scope.
Local Open Scope list_scope.
Local Open Scope Z_scope.

(** ** Strings

    The [str] methods the module relies on: [upper], [strip], [startswith],
    the built-in [int] applied to a string, and [range_re]. *)

Definition upper_ascii (c : ascii) : ascii :=
  let n := nat_of_ascii c in
  if ((97 <=? n) && (n <=? 122))%nat then ascii_of_nat (n - 32) else c.

Fixpoint upper (s : string) : string :=
  match s with
  | EmptyString => EmptyString
  | String c s' => String (upper_ascii c) (upper s')
  end.

(** Whitespace removed by [str.strip()]: space, tab, LF, VT, FF, CR. *)
Definition is_space (c : ascii) : bool :=
  let n := nat_of_ascii c in
  ((n =? 32) || ((9 <=? n) && (n <=? 13)))%nat.

Fixpoint lstrip (s : string) : string :=
  match s with
  | EmptyString => EmptyString
  | String c s' => if is_space c then lstrip s' else s
  end.

Definition strip (s : string) : string :=
  String.rev (lstrip (String.rev (lstrip s))).

Definition startswith (s p : string) : bool := String.prefix p s.

Definition is_digit (c : ascii) : bool :=
  let n := nat_of_ascii c in ((48 <=? n) && (n <=? 57))%nat.

Fixpoint digits_value (acc : Z) (s : string) : option Z :=
  match s with
  | EmptyString => Some acc
  | String c s' =>
      if is_digit c
      then digits_value (10 * acc + (Z.of_nat (nat_of_ascii c) - 48)) s'
      else None
  end.

Definition nonempty_digits_value (s : string) : option Z :=
  match s with
  | EmptyString => None
  | _ => digits_value 0 s
  end.

(** [int(s)] for a string [s]: surrounding whitespace is dropped, one sign
    is accepted, at least one decimal digit is required.  [None] is the
    [ValueError]. *)
Definition int (s : string) : option Z :=
  match strip s with
  | String "-"%char ds => Z.opp <$> nonempty_digits_value ds
  | String "+"%char ds => nonempty_digits_value ds
  | ds => nonempty_digits_value ds
  end.

(** The longest prefix of digits ([\d*], greedy) and what follows it. *)
Fixpoint span_digits (s : string) : string * string :=
  match s with
  | EmptyString => (EmptyString, EmptyString)
  | String c s' =>
      if is_digit c
      then let '(ds, rest) := span_digits s' in (String c ds, rest)
      else (EmptyString, s)
  end.

Fixpoint drop_prefix (p s : string) : option string :=
  match p, s with
  | EmptyString, _ => Some s
  | String a p', String b s' => if Ascii.eqb a b then drop_prefix p' s' else None
  | String _ _, EmptyString => None
  end.

(** [range_re]: the literal prefix items= , a possibly empty run of digits
    (group 1), a dash, a possibly empty run of digits (group 2), and the end
    of the string.  [range_re_match h] is [range_re.match(h)] reduced to its
    two groups.  The end anchor also matches just before a final newline. *)
Definition range_re_match (h : string) : option (string * string) :=
  match drop_prefix "items=" h with
  | None => None
  | Some rest =>
      let '(g1, rest1) := span_digits rest in
      match rest1 with
      | String "-"%char rest2 =>
          let '(g2, rest3) := span_digits rest2 in
          if bool_decide (rest3 = EmptyString ∨ rest3 = String "010"%char EmptyString)
          then Some (g1, g2) else None
      | _ => None
      end
  end.

(** ** Values and responses *)

(** What a handler method may return, apart from a response: [None], a
    string, some object (a model instance, a dict), a list, a tuple, a
    [QuerySet] (the lazy collection: [count()] and slicing), or an iterator
    of chunks.  Collection items are kept as strings. *)
Inductive Data : Type :=
| DNone
| DStr (s : string)
| DObj (o : string)
| DList (l : list string)
| DTuple (l : list string)
| DQuerySet (rows : list string)
| DIter (chunks : list string).

(** [django.http.HttpResponse]: the attributes the module reads or writes. *)
Record HttpResponse : Type := mkHttpResponse {
  status_code : Z;
  _container : Data;
  mimetype : option string;
  headers : gmap string string;
  streaming : bool;
}.

Inductive Value : Type :=
| Plain (d : Data)
| Response (r : HttpResponse).

(** ** Exceptions

  The exception classes the module raises or catches.  [UnboundLocalError]
  is what CPython raises when a local variable is read before any
  assignment to it; [OtherError] stands for every other [Exception]. *)
Inductive Exn : Type :=
| Http404
| HttpStatusCode (response : HttpResponse)
| FormValidationError (form_errors : string)
| TypeError (text : string)
| ValueError
| MimerDataException
| BadRangeException (value : string)
| AssertionError
| AttributeError (attr : string)
| UnboundLocalError (var : string)
| OtherError (text : string).


(** ** The range resolver: [get_range] (resource.py, lines 313-362)

  [start] and [end] are [None] or a Python integer; [total] is the value of
  [result.count()].  The locals [range_start] and [range_end] may hold
  [None], which is what the two closing [assert]s test. *)
(** The body up to the two asserts: the final values of the locals
    [range_start] and [range_end]. *)
Definition get_range_locals (start end_ : option Z) (total : Z)
  : Exn + (option Z * option Z) :=
  if match start with Some s => s <? 0 | None => false end
  then inl (BadRangeException "negative ranges not allowed")
  else if match end_ with Some e => e <? 0 | None => false end
  then inl (BadRangeException "negative ranges not allowed")
  else
    let range_start := start in
    let range_end := end_ in
    let last := total - 1 in
    match range_start, range_end with
    | Some rs, Some re =>
        if rs >? last then inl (BadRangeException "start gt last")
        else if rs >? re then inl (BadRangeException "start lt end")
        else if re >? last then inr (Some rs, Some last)
        else inr (Some rs, Some re)
    | Some rs, None =>
        if rs >? last then inl (BadRangeException "start gt last")
        else inr (Some rs, Some last)
    | None, Some re =>
        if re >? last then inr (Some 0, Some last)
        else inr (Some (last - re + 1), Some last)
    | None, None => inl (BadRangeException "no start or end")
    end.

Definition get_range (start end_ : option Z) (total : Z) : Exn + (Z * Z) :=
  match get_range_locals start end_ total with
  | inl e => inl e
  | inr (range_start, range_end) =>
      match range_start with
      | None => inl AssertionError
      | Some rs =>
          match range_end with
          | None => inl AssertionError
          | Some re => inr (rs, re)
          end
      end
  end.

(** ** Requests

    A [QueryDict] maps a key to the list of its values; indexing it gives
    the last value.  Django's request always carries [GET] and [POST]; [PUT]
    is set by [coerce_put_post], and [cleanup_request] reads all four blocks
    with [getattr(request, method_type, { })]. *)
Abbreviation QueryDict := (gmap string (list string)).

Inductive RequestData : Type :=
| DataParams (q : QueryDict)
| DataDecoded (d : string).

Record HttpRequest : Type := mkHttpRequest {
  method : string;
  GET : QueryDict;
  POST : QueryDict;
  PUT : option QueryDict;
  DELETE : option QueryDict;
  META : gmap string string;
  data : option RequestData;
}.

(** [k in q] *)
Definition qd_contains (q : QueryDict) (k : string) : bool :=
  bool_decide (is_Some (q !! k)).

(** [q.keys()] *)
Definition qd_keys (q : QueryDict) : list string := (map_to_list q).*1.

(** [q.get(k, default)]: the last value of [k], the default when [k] is
    missing or has no value. *)
Definition qd_get (q : QueryDict) (k default : string) : string :=
  match q !! k with
  | Some vs => match last vs with Some v => v | None => default end
  | None => default
  end.

(** [try: int(q[k]) except (ValueError, TypeError): None], for a key the
    caller has checked to be in [q]; a key without values indexes to the
    empty list, on which [int] raises [TypeError]. *)
Definition qd_int (q : QueryDict) (k : string) : option Z :=
  match q !! k with
  | Some vs => match last vs with Some v => int v | None => None end
  | None => None
  end.

(** ** Handlers and authenticators *)

Inductive Stream : Type :=
| SText (s : string)
| SChunks (chunks : list string)
| SResponse (r : HttpResponse).

Record HandlerMethod : Type := mkHandlerMethod {
  (** [meth(request, *args, **kwargs)] *)
  meth_call : HttpRequest → list string → gmap string string → Exn + Value;
  (** [HandlerMethod(meth).signature] *)
  signature : string;
}.

Module Handler.
#[local] Set Warnings "-register-all".
(** A handler class and its instance.  [list_fields] and [anonymous] are
    optional attributes; [anonymous] is a handler class or the name of
    one. *)
Inductive t : Type := mk {
  allowed_methods : list string;
  is_anonymous : bool;
  fields : list string;
  list_fields : option (list string);
  anonymous : option (t + string);
  read : option HandlerMethod;
  create : option HandlerMethod;
  update : option HandlerMethod;
  delete : option HandlerMethod;
}.

(** [getattr(handler, name, None)] for a method name. *)
Definition getattr (h : t) (name : string) : option HandlerMethod :=
  if bool_decide (name = "read") then read h
  else if bool_decide (name = "create") then create h
  else if bool_decide (name = "update") then update h
  else if bool_decide (name = "delete") then delete h
  else None.
End Handler.

Record Authenticator : Type := mkAuthenticator {
  is_authenticated : HttpRequest → bool;
  (** the response that calling the [challenge] method produces *)
  challenge : HttpResponse;
}.

(** [CHALLENGE = object()]: the third value of the second component of
    [authenticate]'s result, next to the two booleans. *)
Inductive Anonymity : Type :=
| AnonFlag (b : bool)
| CHALLENGE.

(** The first component: [False], a handler instance, or a bound
    [challenge] method. *)
Inductive Actor : Type :=
| ActorFalse
| ActorHandler (h : Handler.t)
| ActorChallenge (c : HttpResponse).

(** The object [emitter(result, typemapper, handler, fields, anonymous)]. *)
Record Serializer : Type := mkSerializer {
  render : HttpRequest → Exn + Stream;
  stream_render : HttpRequest → Exn + Stream;
}.

Definition EmitterClass : Type :=
  Data → list (string * Handler.t) → Handler.t → list string → Anonymity → Serializer.

(** ** Collaborators imported by the module *)
Record Collaborators : Type := mkCollaborators {
  (** [handler.typemapper], as (class name, class) pairs *)
  typemapper : list (string * Handler.t);
  (** [utils.coerce_put_post] *)
  coerce_put_post : HttpRequest → HttpRequest;
  (** [utils.translate_mime] *)
  translate_mime : HttpRequest → Exn + HttpRequest;
  (** [Emitter.get]; [None] is its [ValueError] *)
  Emitter_get : string → option (EmitterClass * string);
  (** [utils.format_error] *)
  format_error : string → string;
  (** [str(e)] *)
  str_exn : Exn → string;
  (** the joined lines of [ExceptionReporter(...).format_exception()] *)
  format_exception : Exn → string;
  (** [ExceptionReporter(...).get_traceback_html()] *)
  get_traceback_html : Exn → string;
  (** the [Vary] header value that Django's [patch_vary_headers] computes
      from the current one and the header names to add *)
  vary_value : option string → list string → string;
}.

(** ** Responses built by the module *)

(** [HttpResponse(content, mimetype=..., status=...)] *)
Definition new_response (content : Data) (mt : option string) (status : Z) : HttpResponse :=
  {| status_code := status; _container := content; mimetype := mt;
     headers := ∅; streaming := false |}.

(** Modelled from the spec: [utils.rc] is not among the sources; the spec
    gives the fixed bad-request outcome status 400. *)
Definition rc_BAD_REQUEST : HttpResponse :=
  new_response (DList ["Bad Request"]) None 400.

(** Modelled from the spec: [utils.rc] is not among the sources; the spec
    gives the not-found outcome status 404. *)
Definition rc_NOT_FOUND : HttpResponse :=
  new_response (DList ["Not Found"]) None 404.

(** Modelled from the spec: [utils.rc] is not among the sources; the spec
    gives the requested-range-not-satisfiable outcome status 416. *)
Definition rc_BAD_RANGE : HttpResponse :=
  new_response (DList ["Requested Range Not Satisfiable"]) None 416.

Fixpoint join (sep : string) (l : list string) : string :=
  match l with
  | [] => EmptyString
  | [x] => x
  | x :: l' => x +:+ sep +:+ join sep l'
  end.

(** [django.http.HttpResponseNotAllowed(permitted_methods)] *)
Definition HttpResponseNotAllowed (permitted : list string) : HttpResponse :=
  {| status_code := 405; _container := DList []; mimetype := None;
     headers := {[ "Allow" := join ", " permitted ]}; streaming := false |}.

(** [django.http.HttpResponseServerError(content)] *)
Definition HttpResponseServerError (content : string) : HttpResponse :=
  new_response (DList [content]) None 500.

(** [resp.write(text)] *)
Definition write (resp : HttpResponse) (text : string) : HttpResponse :=
  {| status_code := status_code resp;
     _container := match _container resp with
                   | DList l => DList (l ++ [text])
                   | d => d
                   end;
     mimetype := mimetype resp; headers := headers resp;
     streaming := streaming resp |}.

(** [resp.content = text] *)
Definition set_content (resp : HttpResponse) (text : string) : HttpResponse :=
  {| status_code := status_code resp; _container := DList [text];
     mimetype := mimetype resp; headers := headers resp;
     streaming := streaming resp |}.

Definition set_streaming (resp : HttpResponse) (b : bool) : HttpResponse :=
  {| status_code := status_code resp; _container := _container resp;
     mimetype := mimetype resp; headers := headers resp; streaming := b |}.

(** [resp.status_code = 206; resp['Content-Range'] = content_range] *)
Definition set_partial (resp : HttpResponse) (content_range : string) : HttpResponse :=
  {| status_code := 206; _container := _container resp;
     mimetype := mimetype resp;
     headers := <[ "Content-Range" := content_range ]> (headers resp);
     streaming := streaming resp |}.

(** ** Control flow and effects

    A statement sequence either falls through with a value, leaves the
    enclosing function with [return], or raises.  The observable effects of
    a request are logged: every invocation of a handler method, with the
    request and arguments it receives, and every crash report mailed. *)
Inductive Event : Type :=
| Invoked (request : HttpRequest) (args : list string) (kwargs : gmap string string)
| Emailed (html : string).

Inductive Res (A : Type) : Type :=
| Val (a : A)
| Ret (r : HttpResponse)
| Exc (e : Exn).

Arguments Val {A} a.
Arguments Ret {A} r.
Arguments Exc {A} e.

Definition M (A : Type) : Type := Res A * list Event.

Definition pure {A} (a : A) : M A := (Val a, []).
Definition return_ {A} (r : HttpResponse) : M A := (Ret r, []).
Definition raise {A} (e : Exn) : M A := (Exc e, []).
Definition emit (ev : Event) : M unit := (Val tt, [ev]).

Definition bind {A B} (m : M A) (k : A → M B) : M B :=
  match m with
  | (Val a, t) => let '(r, t') := k a in (r, t ++ t')
  | (Ret r, t) => (Ret r, t)
  | (Exc e, t) => (Exc e, t)
  end.

(** [try: body except ...: handler] *)
Definition try_except {A} (body : M A) (handler : Exn → M A) : M A :=
  match body with
  | (Exc e, t) => let '(r, t') := handler e in (r, t ++ t')
  | other => other
  end.

Definition lift {A} (x : Exn + A) : M A :=
  match x with
  | inl e => raise e
  | inr a => pure a
  end.

(** Reading a local variable: unbound gives [UnboundLocalError]. *)
Definition load_fast {A} (name : string) (v : option A) : M A :=
  match v with
  | Some a => pure a
  | None => raise (UnboundLocalError name)
  end.

Notation "x <- m ;; k" := (bind m (λ x, k))
  (at level 100, m at next level, right associativity,
   format "'[v' x  <-  m  ;;  '/' k ']'").
(** The requests the handler method was invoked with, in order; its length
    is the method invocation count. *)
Fixpoint invocations (log : list Event) : list HttpRequest :=
  match log with
  | [] => []
  | Invoked request _ _ :: log' => request :: invocations log'
  | Emailed _ :: log' => invocations log'
  end.

(** Every request a computation hands to the handler method satisfies [P]. *)
Definition calls_satisfy (P : HttpRequest → Prop) {A} (m : M A) : Prop :=
  Forall P (invocations m.2).

(** What a call of the resource amounts to for its caller. *)
Inductive Outcome : Type :=
| Returned (r : HttpResponse)
| Raised (e : Exn).

(** ** The [Resource] class *)
Module Resource.

(** The attributes set by [__init__]. *)
Record t : Type := mk {
  handler : Handler.t;
  authentication : list Authenticator;
  email_errors : bool;
  display_errors : bool;
  stream : bool;
  paging_offset : string;
  paging_limit : string;
}.

Definition callmap : gmap string string :=
  <[ "GET" := "read" ]> (<[ "POST" := "create" ]>
    (<[ "PUT" := "update" ]> (<[ "DELETE" := "delete" ]> ∅))).

Section Methods.
Context (env : Collaborators).

(** [determine_emitter]: the keyword argument [emitter_format] when it is
    truthy, else the query parameter [format], else json. *)
Definition determine_emitter (request : HttpRequest) (args : list string)
    (kwargs : gmap string string) : string :=
  let em := kwargs !! "emitter_format" in
  match em with
  | Some f => if bool_decide (f = EmptyString) then qd_get (GET request) "format" "json" else f
  | None => qd_get (GET request) "format" "json"
  end.

(** [form_validation_response], on the text of [e.form.errors]. *)
Definition form_validation_response (form_errors : string) : HttpResponse :=
  let resp := rc_BAD_REQUEST in
  write resp (" " +:+ form_errors).

Fixpoint typemapper_find (classes : list (string * Handler.t)) (anon : string)
    : option Handler.t :=
  match classes with
  | [] => None
  | (name, klass) :: rest =>
      if bool_decide (anon = name) then Some klass else typemapper_find rest anon
  end.

(** The [anonymous] property: the anonymous handler class, if any. *)
Definition anonymous (self : t) : option Handler.t :=
  match Handler.anonymous (handler self) with
  | Some (inl anon) => Some anon
  | Some (inr anon) => typemapper_find (typemapper env) anon
  | None => None
  end.

(** The [for] loop of [authenticate], with the current values of the locals
    [actor] and [anonymous]. *)
Fixpoint authenticate_loop (self : t) (request : HttpRequest) (rm : string)
    (authenticators : list Authenticator) (locals : Actor * Anonymity)
    : Actor * Anonymity :=
  match authenticators with
  | [] => locals
  | authenticator :: rest =>
      if negb (is_authenticated authenticator request) then
        match anonymous self with
        | Some anon =>
            if bool_decide (rm ∈ Handler.allowed_methods anon)
            then authenticate_loop self request rm rest (ActorHandler anon, AnonFlag true)
            else authenticate_loop self request rm rest
                   (ActorChallenge (challenge authenticator), CHALLENGE)
        | None =>
            authenticate_loop self request rm rest
              (ActorChallenge (challenge authenticator), CHALLENGE)
        end
      else (ActorHandler (handler self), AnonFlag (Handler.is_anonymous (handler self)))
  end.

Definition authenticate (self : t) (request : HttpRequest) (rm : string)
    : Actor * Anonymity :=
  authenticate_loop self request rm (authentication self) (ActorFalse, AnonFlag true).

(** [getattr(request, method_type, { })] *)
Definition getattr_block (request : HttpRequest) (method_type : string) : QueryDict :=
  if bool_decide (method_type = "GET") then GET request
  else if bool_decide (method_type = "POST") then POST request
  else if bool_decide (method_type = "PUT") then default ∅ (PUT request)
  else if bool_decide (method_type = "DELETE") then default ∅ (DELETE request)
  else ∅.

(** [setattr(request, method_type, sanitized)] *)
Definition setattr_block (request : HttpRequest) (method_type : string)
    (sanitized : QueryDict) : HttpRequest :=
  if bool_decide (method_type = "GET") then
    mkHttpRequest (method request) sanitized (POST request) (PUT request)
      (DELETE request) (META request) (data request)
  else if bool_decide (method_type = "POST") then
    mkHttpRequest (method request) (GET request) sanitized (PUT request)
      (DELETE request) (META request) (data request)
  else if bool_decide (method_type = "PUT") then
    mkHttpRequest (method request) (GET request) (POST request) (Some sanitized)
      (DELETE request) (META request) (data request)
  else if bool_decide (method_type = "DELETE") then
    mkHttpRequest (method request) (GET request) (POST request) (PUT request)
      (Some sanitized) (META request) (data request)
  else request.

(** The inner loop of [cleanup_request]: pop every key with the prefix. *)
Definition pop_oauth_keys (sanitized : QueryDict) (keys : list string) : QueryDict :=
  foldl (λ sanitized k,
           if startswith k "oauth_" then base.delete k sanitized else sanitized)
        sanitized keys.

Definition cleanup_block (request : HttpRequest) (method_type : string) : HttpRequest :=
  let block := getattr_block request method_type in
  if existsb (λ k, startswith k "oauth_") (qd_keys block) then
    let sanitized := block in
    let sanitized := pop_oauth_keys sanitized (qd_keys sanitized) in
    setattr_block request method_type sanitized
  else request.

Definition cleanup_request (request : HttpRequest) : HttpRequest :=
  foldl cleanup_block request ["GET"; "PUT"; "POST"; "DELETE"].

(** [email_exception] *)
Definition email_exception (html : string) : M unit := emit (Emailed html).

(** The crash-report branch shared by [error_handler] and the first
    rendering block of [__call__]. *)
Definition crash_report {A} (self : t) (e : Exn) : M A :=
  _ <- (if email_errors self then email_exception (get_traceback_html env e)
        else pure tt) ;;
  if display_errors self
  then return_ (HttpResponseServerError (format_error env (format_exception env e)))
  else raise e.

(** [error_handler]: its return value is [Val], a re-raise is [Exc]. *)
Definition error_handler (self : t) (e : Exn) (request : HttpRequest)
    (meth : HandlerMethod) (em_format : string) : M Value :=
  match e with
  | FormValidationError form_errors =>
      pure (Response (form_validation_response form_errors))
  | TypeError _ =>
      let result := rc_BAD_REQUEST in
      let sig := signature meth in
      let msg := "Method signature does not match." +:+ String "010" (String "010" EmptyString) in
      let msg :=
        if bool_decide (sig ≠ EmptyString)
        then msg +:+ "Signature should be: " +:+ sig
        else msg +:+ "Resource does not expect any parameters." in
      let msg :=
        if display_errors self
        then msg +:+ String "010" (String "010" "Exception was: ") +:+ str_exn env e
        else msg in
      pure (Response (set_content result (format_error env msg)))
  | Http404 => pure (Response rc_NOT_FOUND)
  | HttpStatusCode response => pure (Response response)
  | _ =>
      match crash_report self e with
      | (Ret r, t) => (Val (Response r), t)
      | other => other
      end
  end.

(** ** [__call__] *)

(** Lines 142-151: [request.data] for POST and PUT. *)
Definition set_data (request : HttpRequest) (d : RequestData) : HttpRequest :=
  mkHttpRequest (method request) (GET request) (POST request) (PUT request)
    (DELETE request) (META request) (Some d).

Definition translate_body (rm : string) (request : HttpRequest) : M HttpRequest :=
  if bool_decide (rm ∈ ["POST"; "PUT"]) then
    request <- try_except (lift (translate_mime env request))
                 (λ e, match e with
                       | MimerDataException => return_ rc_BAD_REQUEST
                       | _ => raise e
                       end) ;;
    match data request with
    | Some _ => pure request
    | None =>
        if bool_decide (rm = "POST")
        then pure (set_data request (DataParams (POST request)))
        else match PUT request with
             | Some put => pure (set_data request (DataParams put))
             | None => raise (AttributeError "PUT")
             end
    end
  else pure request.

(** Lines 173-176: the invocation and the classification of its fault. The
    second component is the local [e], bound by the [except] clause. *)
Definition invoke (self : t) (meth : HandlerMethod) (request : HttpRequest)
    (args : list string) (kwargs : gmap string string) (em_format : string)
    : M (Value * option Exn) :=
  _ <- emit (Invoked request args kwargs) ;;
  match meth_call meth request args kwargs with
  | inr result => pure (result, None)
  | inl e =>
      result <- error_handler self e request meth em_format ;;
      pure (result, Some e)
  end.

Definition is_list (d : Data) : bool :=
  match d with DList _ => true | _ => false end.
Definition is_tuple (d : Data) : bool :=
  match d with DTuple _ => true | _ => false end.
Definition is_QuerySet (d : Data) : bool :=
  match d with DQuerySet _ => true | _ => false end.

(** [HttpResponse(stream, mimetype=ct, status=status_code)] unless the
    stream is a response already. *)
Definition response_of_stream (stream : Stream) (ct : string) (status_code : Z)
    : HttpResponse :=
  match stream with
  | SText s => new_response (DList [s]) (Some ct) status_code
  | SChunks chunks => new_response (DIter chunks) (Some ct) status_code
  | SResponse r => r
  end.

(** [result.content = ...] on a plain value: built-in containers and
    strings have no settable attributes. *)
Definition setattr_content (result : Data) (content : string) : Exn + Data :=
  match result with
  | DObj o => inr (DObj o)
  | DQuerySet rows => inr (DQuerySet rows)
  | _ => inl (AttributeError "content")
  end.

(** Lines 203-251: the first rendering block.  [msg] and [e] are the
    locals of [__call__] of these names, [None] while unbound. *)
Definition first_render (self : t) (request : HttpRequest) (handler : Handler.t)
    (anonymous : Anonymity) (emitter : EmitterClass) (ct : string)
    (fields : list string) (result : Data) (status_code : Z)
    (msg : option string) (e : option Exn)
    : M (HttpResponse * Data * option string) :=
  let srl := emitter result (typemapper env) handler fields anonymous in
  try_except
    (stream <- lift (if stream self then stream_render srl request
                     else render srl request) ;;
     let resp := response_of_stream stream ct status_code in
     msg <- (if display_errors self then
               m <- load_fast "msg" msg ;;
               e <- load_fast "e" e ;;
               pure (Some (m +:+ String "010" (String "010" "Exception was: ")
                             +:+ str_exn env e))
             else pure msg) ;;
     let resp := set_streaming resp (Resource.stream self) in
     m <- load_fast "msg" msg ;;
     result <- lift (setattr_content result (format_error env m)) ;;
     pure (resp, result, msg))
    (λ e, match e with
          | Http404 => return_ rc_NOT_FOUND
          | HttpStatusCode response => return_ response
          | _ => crash_report self e
          end).

(** [int(m.group(i))] when the group is not empty. *)
Definition group_int (g : string) : M (option Z) :=
  if bool_decide (g ≠ EmptyString) then
    match int g with
    | Some n => pure (Some n)
    | None => raise ValueError
    end
  else pure None.

(** Lines 262-310: the local [request_range]. *)
Definition request_range_of (self : t) (request : HttpRequest)
    : M (option (option Z * option Z)) :=
  match META request !! "HTTP_RANGE" with
  | Some v =>
      let h := strip v in
      if startswith h "items=" then
        match range_re_match h with
        | Some (g1, g2) =>
            s <- group_int g1 ;;
            e <- group_int g2 ;;
            pure (Some (s, e))
        | None => return_ (write rc_BAD_REQUEST " malformed range header")
        end
      else pure None
  | None =>
      if qd_contains (GET request) (paging_offset self)
         && qd_contains (GET request) (paging_limit self)
      then
        let offset := qd_int (GET request) (paging_offset self) in
        let limit := qd_int (GET request) (paging_limit self) in
        match offset, limit with
        | Some o, Some l => pure (Some (Some o, Some (o + l - 1)))
        | Some o, None => pure (Some (Some o, None))
        | None, Some l => pure (Some (None, Some l))
        | None, None => pure None
        end
      else pure None
  end.

(** [result[start:stop]] on a [QuerySet], which refuses negative indices. *)
Definition qs_slice (rows : list string) (start stop : Z) : Exn + list string :=
  if (start <? 0) || (stop <? 0) then inl AssertionError
  else inr (take (Z.to_nat (stop - start)) (drop (Z.to_nat start) rows)).

(** The text of [items %i-%i/%i]. *)
Definition content_range_text (start end_ total : Z) : string :=
  "items " +:+ pretty start +:+ "-" +:+ pretty end_ +:+ "/" +:+ pretty total.

(** Lines 253-373: range handling on a [QuerySet] result; the result and
    the local [content_range]. *)
Definition apply_range (self : t) (request : HttpRequest) (result : Data)
    : M (Data * option string) :=
  match result with
  | DQuerySet rows =>
      request_range <- request_range_of self request ;;
      match request_range with
      | Some (rs, re) =>
          try_except
            (let total := Z.of_nat (length rows) in
             p <- lift (get_range rs re total) ;;
             let '(start, end_) := p in
             sliced <- lift (qs_slice rows start (end_ + 1)) ;;
             pure (DQuerySet sliced, Some (content_range_text start end_ total)))
            (λ e, match e with
                  | BadRangeException value =>
                      return_ (write rc_BAD_RANGE (String "010" value))
                  | _ => raise e
                  end)
      | None => pure (result, None)
      end
  | _ => pure (result, None)
  end.

(** Lines 376-407: the final emission. *)
Definition emit_response (self : t) (request : HttpRequest) (handler : Handler.t)
    (anonymous : Anonymity) (em_format : string) (result : Data)
    (status_code : Z) (content_range : option string) : M HttpResponse :=
  match Emitter_get env em_format with
  | None => raise ValueError
  | Some (emitter, ct) =>
      let fields :=
        match Handler.list_fields handler with
        | Some lf => if is_list result || is_QuerySet result then lf
                     else Handler.fields handler
        | None => Handler.fields handler
        end in
      let srl := emitter result (typemapper env) handler fields anonymous in
      try_except
        (stream <- lift (if stream self then stream_render srl request
                         else render srl request) ;;
         let resp := response_of_stream stream ct status_code in
         let resp := set_streaming resp (Resource.stream self) in
         let resp :=
           match content_range with
           | Some cr => if bool_decide (cr ≠ EmptyString) then set_partial resp cr
                        else resp
           | None => resp
           end in
         return_ resp)
        (λ e, match e with
              | HttpStatusCode response => return_ response
              | _ => raise e
              end)
  end.

(** Lines 127-132: the upper-cased verb, and the request after
    [coerce_put_post] when the verb is PUT. *)
Definition request_method (request : HttpRequest) : string := upper (method request).

Definition coerce_if_put (request : HttpRequest) : HttpRequest :=
  if bool_decide (request_method request = "PUT") then coerce_put_post env request
  else request.

(** The body of [__call__], statement by statement. *)
Definition call_body (self : t) (request : HttpRequest) (args : list string)
    (kwargs : gmap string string) : M HttpResponse :=
  let rm := request_method request in
  let request := coerce_if_put request in
  let '(actor, anonymous) := authenticate self request rm in
  match anonymous with
  | CHALLENGE =>
      match actor with
      | ActorChallenge c => return_ c
      | _ => raise (TypeError "actor is not callable")
      end
  | AnonFlag _ =>
      let handler := actor in
      request <- translate_body rm request ;;
      handler <- (match handler with
                  | ActorHandler h => pure h
                  | _ => raise (AttributeError "allowed_methods")
                  end) ;;
      if negb (bool_decide (rm ∈ Handler.allowed_methods handler))
      then return_ (HttpResponseNotAllowed (Handler.allowed_methods handler))
      else
        match Handler.getattr handler (default EmptyString (callmap !! rm)) with
        | None => raise Http404
        | Some meth =>
            let em_format := determine_emitter request args kwargs in
            let kwargs := base.delete "emitter_format" kwargs in
            let request := cleanup_request request in
            let sig := signature meth in
            let msg : option string := None in
            p <- invoke self meth request args kwargs em_format ;;
            let '(result, e) := p in
            match Emitter_get env em_format with
            | None =>
                let result := rc_BAD_REQUEST in
                return_ (set_content result
                           ("Invalid output format specified '" +:+ em_format +:+ "'."))
            | Some (emitter, ct) =>
                let fields :=
                  match Handler.list_fields handler, result with
                  | Some lf, Plain d =>
                      if is_list d || is_tuple d || is_QuerySet d then lf
                      else Handler.fields handler
                  | _, _ => Handler.fields handler
                  end in
                let status_code := 200 in
                p <- (match result with
                      | Response r =>
                          let 'mkHttpResponse code _ _ _ _ := r in
                          let status_code := code in
                          let result := _container r in
                          msg <- (if bool_decide (sig ≠ EmptyString) then
                                    m <- load_fast "msg" msg ;;
                                    pure (Some (m +:+ "Signature should be: " +:+ sig))
                                  else pure msg) ;;
                          pure (status_code, result, msg)
                      | Plain d => pure (status_code, d, msg)
                      end) ;;
                let '(status_code, result, msg) := p in
                p <- first_render self request handler anonymous emitter ct
                       fields result status_code msg e ;;
                let '(resp, result, msg) := p in
                p <- apply_range self request result ;;
                let '(result, content_range) := p in
                emit_response self request handler anonymous em_format result
                  status_code content_range
            end
        end
  end.

(** [vary_on_headers('Authorization')] around the body: the response gets
    its [Vary] header patched. *)
Definition vary_on_headers (newheaders : list string) (response : HttpResponse)
    : HttpResponse :=
  {| status_code := status_code response; _container := _container response;
     mimetype := mimetype response;
     headers := <[ "Vary" := vary_value env (headers response !! "Vary") newheaders ]>
                  (headers response);
     streaming := streaming response |}.

Definition __call__ (self : t) (request : HttpRequest) (args : list string)
    (kwargs : gmap string string) : Outcome * list Event :=
  match call_body self request args kwargs with
  | (Val response, log) | (Ret response, log) =>
      (Returned (vary_on_headers ["Authorization"] response), log)
  | (Exc e, log) => (Raised e, log)
  end.

End Methods.
End Resource.

(** ** Fixtures

    A small installation used to run the model: one emitter registered
    under json, a body decoder that rejects the content type
    application/broken, and handlers over a collection of a hundred rows. *)
Module Fixtures.

Definition dump (d : Data) : string :=
  match d with
  | DNone => "null"
  | DStr s => s
  | DObj o => o
  | DList l | DTuple l | DQuerySet l => "[" +:+ join ", " l +:+ "]"
  | DIter chunks => join EmptyString chunks
  end.

Definition json_emitter : EmitterClass :=
  λ result _ _ _ _,
    {| render := λ _, inr (SText (dump result));
       stream_render := λ _, inr (SChunks [dump result]) |}.

Definition env : Collaborators :=
  {| typemapper := [];
     coerce_put_post := λ request, request;
     translate_mime := λ request,
       if bool_decide (META request !! "CONTENT_TYPE" = Some "application/broken")
       then inl MimerDataException else inr request;
     Emitter_get := λ format,
       if bool_decide (format = "json") then Some (json_emitter, "application/json")
       else None;
     format_error := λ text, text;
     str_exn := λ _, "error";
     format_exception := λ _, "Traceback";
     get_traceback_html := λ _, "<html>Traceback</html>";
     vary_value := λ old new,
       match old with
       | Some v => v +:+ ", " +:+ join ", " new
       | None => join ", " new
       end |}.

(** The rows 0, 1, ..., 99. *)
Definition rows100 : list string := (λ n : nat, pretty n) <$> seq 0 100.

Definition read_rows : HandlerMethod :=
  {| meth_call := λ _ _ _, inr (Plain (DQuerySet rows100));
     signature := EmptyString |}.

Definition read_object : HandlerMethod :=
  {| meth_call := λ _ _ _, inr (Plain (DObj "entry"));
     signature := EmptyString |}.

Definition create_object : HandlerMethod :=
  {| meth_call := λ _ _ _, inr (Plain (DObj "created"));
     signature := EmptyString |}.

Definition rows_handler : Handler.t :=
  Handler.mk ["GET"] false ["id"] None None (Some read_rows) None None None.

Definition object_handler : Handler.t :=
  Handler.mk ["GET"; "POST"] false ["id"] None None
    (Some read_object) (Some create_object) None None.

(** A handler that declares PATCH among its allowed verbs. *)
Definition patch_handler : Handler.t :=
  Handler.mk ["GET"; "PATCH"] false ["id"] None None (Some read_object) None None None.

Definition http_401 (realm : string) : HttpResponse :=
  {| status_code := 401; _container := DList ["Authorization Required"];
     mimetype := None; headers := {[ "WWW-Authenticate" := realm ]};
     streaming := false |}.

Definition open_auth : Authenticator :=
  {| is_authenticated := λ _, true; challenge := http_401 "none" |}.

Definition basic_auth : Authenticator :=
  {| is_authenticated := λ request, bool_decide (is_Some (META request !! "HTTP_AUTHORIZATION"));
     challenge := http_401 "Basic" |}.

Definition oauth_auth : Authenticator :=
  {| is_authenticated := λ request, qd_contains (GET request) "oauth_token";
     challenge := http_401 "OAuth" |}.

Definition resource (h : Handler.t) (auth : list Authenticator) (display : bool)
    : Resource.t :=
  Resource.mk h auth true display false "offset" "limit".

Definition request (verb : string) (query : list (string * list string))
    (meta : list (string * string)) : HttpRequest :=
  {| method := verb; GET := list_to_map query; POST := ∅; PUT := None;
     DELETE := None; META := list_to_map meta; data := None |}.

(** Requests and resources used below. *)
Definition bare_get : HttpRequest := request "GET" [] [].

Definition paged_get : HttpRequest :=
  request "GET" [("offset", ["10"]); ("limit", ["5"])] [].

Definition foreign_range_get : HttpRequest :=
  request "GET" [("offset", ["10"]); ("limit", ["5"])] [("HTTP_RANGE", "bytes=0-9")].

Definition signed_get : HttpRequest :=
  request "GET" [("oauth_token", ["t"]); ("oauth_nonce", ["n"]); ("page", ["2"])] [].

Definition broken_post : HttpRequest :=
  request "POST" [] [("CONTENT_TYPE", "application/broken")].

Definition patch_request : HttpRequest := request "PATCH" [] [].

Definition open_resource (h : Handler.t) : Resource.t := resource h [open_auth] true.

Definition guarded_resource : Resource.t := resource object_handler [basic_auth] true.

Definition two_step_resource : Resource.t :=
  resource object_handler [basic_auth; oauth_auth] true.

End Fixtures.

(** ** Further definitions *)

(** A string of decimal digits only, as the groups of [range_re] are. *)
Fixpoint all_digits (s : string) : bool :=
  match s with
  | EmptyString => true
  | String c s' => is_digit c && all_digits s'
  end.

(** The faults [error_handler] has a branch of their own for. *)
Definition classified (e : Exn) : bool :=
  match e with
  | FormValidationError _ | TypeError _ | Http404 | HttpStatusCode _ => true
  | _ => false
  end.

(** ** [Resource.__init__] *)
Module Construction.

(** The Django settings [__init__] reads, [None] when not set. *)
Record Settings : Type := mkSettings {
  PISTON_EMAIL_ERRORS : option bool;
  PISTON_DISPLAY_ERRORS : option bool;
  PISTON_STREAM_OUTPUT : option bool;
  PISTON_PAGINATION_PARAMS : option (list string);
}.

(** The [handler] argument: a handler class, or something not callable. *)
Inductive HandlerArg : Type :=
| HandlerClass (h : Handler.t)
| NotCallable.

(** The [authentication] argument: [None], a list or tuple, or a single
    authenticator. *)
Inductive AuthenticationArg : Type :=
| AuthNone
| AuthSequence (l : list Authenticator)
| AuthSingle (a : Authenticator).

(** [__init__]: the resource and its [csrf_exempt] attribute, which is
    [getattr(self.handler, 'csrf_exempt', True)] on a handler that, like
    [Handler.t], has no such attribute.  [NoAuthentication] is the class of
    the authentication module; indexing too short a tuple of paging
    parameters raises [IndexError]. *)
Definition __init__ (settings : Settings) (NoAuthentication : Authenticator)
    (handler : HandlerArg) (authentication : AuthenticationArg)
    : Exn + (Resource.t * bool) :=
  match handler with
  | NotCallable => inl (AttributeError "Handler not callable.")
  | HandlerClass h =>
      let csrf_exempt := true in
      let authentication :=
        match authentication with
        | AuthNone => [NoAuthentication]
        | AuthSequence [] => [NoAuthentication]
        | AuthSequence l => l
        | AuthSingle a => [a]
        end in
      let email_errors := default true (PISTON_EMAIL_ERRORS settings) in
      let display_errors := default true (PISTON_DISPLAY_ERRORS settings) in
      let stream := default false (PISTON_STREAM_OUTPUT settings) in
      let paging_params :=
        default ["offset"; "limit"] (PISTON_PAGINATION_PARAMS settings) in
      match paging_params !! 0%nat with
      | None => inl (OtherError "IndexError")
      | Some paging_offset =>
          match paging_params !! 1%nat with
          | None => inl (OtherError "IndexError")
          | Some paging_limit =>
              inr (Resource.mk h authentication email_errors display_errors
                     stream paging_offset paging_limit, csrf_exempt)
          end
      end
  end.

End Construction.

(** ** Further fixtures *)
Module Samples.

Definition no_settings : Construction.Settings :=
  Construction.mkSettings None None None None.

(** A method with one route argument; no entry is ever found. *)
Definition find_entry : HandlerMethod :=
  {| meth_call := λ _ _ _, inl Http404; signature := "id" |}.

Definition lookup_handler : Handler.t :=
  Handler.mk ["GET"] false ["id"] None None (Some find_entry) None None None.

(** A handler that allows DELETE without having a delete method. *)
Definition stub_handler : Handler.t :=
  Handler.mk ["GET"; "DELETE"] false ["id"] None None
    (Some Fixtures.read_object) None None None.

Definition anonymous_rows : Handler.t :=
  Handler.mk ["GET"] true ["id"] None None (Some Fixtures.read_rows) None None None.

(** A handler with an anonymous variant that allows GET only. *)
Definition public_handler : Handler.t :=
  Handler.mk ["GET"; "POST"] false ["id"] None (Some (inl anonymous_rows))
    (Some Fixtures.read_object) (Some Fixtures.create_object) None None.

Definition public_resource : Resource.t :=
  Fixtures.resource public_handler [Fixtures.basic_auth] true.

Definition quiet_resource : Resource.t :=
  Fixtures.resource Fixtures.object_handler [Fixtures.open_auth] false.

Definition delete_request : HttpRequest := Fixtures.request "DELETE" [] [].

Definition xml_get : HttpRequest := Fixtures.request "GET" [("format", ["xml"])] [].

Definition items_get : HttpRequest :=
  Fixtures.request "GET" [("offset", ["10"]); ("limit", ["5"])]
    [("HTTP_RANGE", " items=7-45 ")].

Definition empty_page_get : HttpRequest :=
  Fixtures.request "GET" [("offset", ["10"]); ("limit", ["0"])] [].

Definition tail_from_get : HttpRequest :=
  Fixtures.request "GET" [("offset", ["90"]); ("limit", [EmptyString])] [].

Definition last_rows_get : HttpRequest :=
  Fixtures.request "GET" [("offset", [EmptyString]); ("limit", ["3"])] [].

End Samples.

(** * Properties *)

(** ** The range resolver *)

Ltac range_cases :=
  repeat match goal with
         | |- context [(?a <? ?b)] => destruct (Z.ltb_spec a b)
         | |- context [(?a >? ?b)] => rewrite (Z.gtb_ltb a b)
         | H : context [(?a <? ?b)] |- _ => destruct (Z.ltb_spec a b)
         | H : context [(?a >? ?b)] |- _ => rewrite (Z.gtb_ltb a b) in H
         end.

(** The two asserts that close [get_range] never fire. *)
Lemma get_range_asserts_hold (start end_ : option Z) (total : Z) :
  get_range start end_ total ≠ inl AssertionError.
Proof.
  unfold get_range, get_range_locals.
  destruct start as [s|], end_ as [e|]; range_cases; simpl; congruence.
Qed.

Lemma get_range_locals_present (start end_ : option Z) (total s e : Z) :
  get_range start end_ total = inr (s, e) →
  get_range_locals start end_ total = inr (Some s, Some e).
Proof.
  unfold get_range.
  destruct (get_range_locals start end_ total) as [x|[[rs|] [re|]]]; congruence.
Qed.

(** C4, as stated, fails: a tail request of zero items on fifty rows
    resolves to start 50 and end 49. *)
Lemma get_range_tail_zero_counterexample :
  get_range None (Some 0) 50 = inr (50, 49) ∧ ¬ (0 ≤ 50 ≤ 49 ∧ 49 ≤ 50 - 1).
Proof. split; [reflexivity | lia]. Qed.

(** C4 (amended): whenever [get_range] returns, both locals hold an integer,
    the returned start is not negative and the returned end is at most
    total - 1; the start is at most the end whenever a start was supplied,
    or the collection is not empty and the tail length is at least one. *)
Theorem get_range_bounds (start end_ : option Z) (total s e : Z) :
  get_range start end_ total = inr (s, e) →
  get_range_locals start end_ total = inr (Some s, Some e)
  ∧ 0 ≤ s ∧ e ≤ total - 1
  ∧ ((is_Some start ∨ (1 ≤ total ∧ ∃ n, end_ = Some n ∧ 1 ≤ n)) → s ≤ e).
Proof.
  intros Hret. split; [by apply get_range_locals_present|].
  revert Hret. unfold get_range, get_range_locals.
  destruct start as [rs|], end_ as [re|]; range_cases; simpl;
    intros [= <- <-] || intros [=]; repeat split; try lia.
  all: intros [[x [=]]|[Ht (n & [= <-] & Hn)]]; lia.
Qed.

Lemma get_range_bounds_witness :
  get_range_locals (Some 7) (Some 150) 100 = inr (Some 7, Some 99)
  ∧ 0 ≤ 7 ∧ 99 ≤ 100 - 1
  ∧ ((is_Some (Some 7) ∨ (1 ≤ 100 ∧ ∃ n, Some 150 = Some n ∧ 1 ≤ n)) → 7 ≤ 99).
Proof. apply (get_range_bounds (Some 7) (Some 150) 100 7 99). reflexivity. Defined.

(** C5, as stated, fails: a negative start given alone is refused although
    it does not exceed total - 1. *)
Lemma get_range_negative_start_counterexample :
  1 ≤ 5
  ∧ get_range (Some (-1)) None 5 = inl (BadRangeException "negative ranges not allowed")
  ∧ ¬ (-1 > 5 - 1).
Proof. repeat split; [lia | lia]. Qed.

(** C5 (amended): for a total T of at least one, a start and an end with
    0 <= start <= T - 1 and start <= end resolve to (start, end) when
    end <= T - 1 and to (start, T - 1) otherwise; a start that is not
    negative, given alone, fails exactly when start > T - 1 and resolves to
    (start, T - 1) otherwise. *)
Theorem get_range_start_given (T start : Z) :
  1 ≤ T → 0 ≤ start →
  (∀ end_, start ≤ T - 1 → start ≤ end_ →
     get_range (Some start) (Some end_) T
     = inr (if bool_decide (end_ ≤ T - 1) then (start, end_) else (start, T - 1)))
  ∧ ((∃ exn, get_range (Some start) None T = inl exn) ↔ start > T - 1)
  ∧ (¬ start > T - 1 → get_range (Some start) None T = inr (start, T - 1)).
Proof.
  intros HT Hs. split; [|split].
  - intros end_ Hlast Hle. unfold get_range, get_range_locals.
    case_bool_decide; range_cases; simpl; try reflexivity; lia.
  - unfold get_range, get_range_locals. range_cases; simpl; split;
      try lia; try (intros [exn [=]]); eauto.
  - intros Hin. unfold get_range, get_range_locals.
    range_cases; simpl; try reflexivity; lia.
Qed.

Lemma get_range_start_given_witness :
  (∀ end_, 7 ≤ 100 - 1 → 7 ≤ end_ →
     get_range (Some 7) (Some end_) 100
     = inr (if bool_decide (end_ ≤ 100 - 1) then (7, end_) else (7, 100 - 1)))
  ∧ ((∃ exn, get_range (Some 7) None 100 = inl exn) ↔ 7 > 100 - 1)
  ∧ (¬ 7 > 100 - 1 → get_range (Some 7) None 100 = inr (7, 100 - 1)).
Proof. apply (get_range_start_given 100 7); lia. Defined.

(** C6: for a total T of at least one and an end that is not negative, given
    alone, the range resolves to (0, T - 1) when end > T - 1 and to
    (T - end, T - 1) otherwise; ten of fifty gives (40, 49) and sixty of
    fifty gives (0, 49). *)
Theorem get_range_tail (T end_ : Z) :
  1 ≤ T → 0 ≤ end_ →
  get_range None (Some end_) T
  = inr (if bool_decide (end_ > T - 1) then (0, T - 1) else (T - end_, T - 1))
  ∧ get_range None (Some 10) 50 = inr (40, 49)
  ∧ get_range None (Some 60) 50 = inr (0, 49).
Proof.
  intros HT He. split; [|split; reflexivity].
  unfold get_range, get_range_locals.
  case_bool_decide; range_cases; simpl; try lia; do 2 f_equal; lia.
Qed.

Lemma get_range_tail_witness :
  get_range None (Some 10) 50
  = inr (if bool_decide (10 > 50 - 1) then (0, 50 - 1) else (50 - 10, 50 - 1))
  ∧ get_range None (Some 10) 50 = inr (40, 49)
  ∧ get_range None (Some 60) 50 = inr (0, 49).
Proof. apply (get_range_tail 50 10); lia. Defined.

(** ** The authenticator chain *)

Section Authenticate.
Context (env : Collaborators).

(** When no strategy authenticates and no anonymous variant takes the verb,
    every turn of the loop overwrites the locals with the current strategy's
    challenge. *)
Lemma authenticate_loop_all_refuse (self : Resource.t) (request : HttpRequest)
    (rm : string) (authenticators : list Authenticator) (locals : Actor * Anonymity) :
  Forall (λ a, is_authenticated a request = false) authenticators →
  (∀ anon, Resource.anonymous env self = Some anon →
           rm ∉ Handler.allowed_methods anon) →
  Resource.authenticate_loop env self request rm authenticators locals
  = match last authenticators with
    | Some a => (ActorChallenge (challenge a), CHALLENGE)
    | None => locals
    end.
Proof.
  intros Hall Hanon. revert locals.
  induction Hall as [|a rest Ha Hrest IH]; intros locals; [reflexivity|].
  cbn [Resource.authenticate_loop]. rewrite Ha. cbn [negb].
  assert (Hstep : Resource.authenticate_loop env self request rm rest
                    (ActorChallenge (challenge a), CHALLENGE)
                  = match last (a :: rest) with
                    | Some a' => (ActorChallenge (challenge a'), CHALLENGE)
                    | None => locals
                    end).
  { rewrite IH, last_cons. destruct (last rest); reflexivity. }
  destruct (Resource.anonymous env self) as [anon|] eqn:Han; [|exact Hstep].
  rewrite bool_decide_eq_false_2; [exact Hstep|]. by apply Hanon.
Qed.

(** C2 (amended): when no strategy authenticates the request and no
    anonymous variant declares the verb, [authenticate] returns the LAST
    strategy's challenge together with [CHALLENGE]. *)
Theorem authenticate_challenge_of_last (self : Resource.t) (request : HttpRequest)
    (rm : string) (front : list Authenticator) (final : Authenticator) :
  Resource.authentication self = front ++ [final] →
  Forall (λ a, is_authenticated a request = false) (Resource.authentication self) →
  (∀ anon, Resource.anonymous env self = Some anon →
           rm ∉ Handler.allowed_methods anon) →
  Resource.authenticate env self request rm
  = (ActorChallenge (challenge final), CHALLENGE).
Proof.
  intros Hlist Hall Hanon. unfold Resource.authenticate.
  rewrite (authenticate_loop_all_refuse _ _ _ _ _ Hall Hanon), Hlist.
  by rewrite last_snoc.
Qed.

End Authenticate.

(** C2, as stated, fails: with two strategies that both refuse a request and
    no anonymous variant, the challenge returned is the second one's, not
    the first one's. *)
Lemma authenticate_first_challenge_counterexample :
  Forall (λ a, is_authenticated a Fixtures.bare_get = false)
         (Resource.authentication Fixtures.two_step_resource)
  ∧ Resource.anonymous Fixtures.env Fixtures.two_step_resource = None
  ∧ Resource.authenticate Fixtures.env Fixtures.two_step_resource Fixtures.bare_get "GET"
    = (ActorChallenge (challenge Fixtures.oauth_auth), CHALLENGE)
  ∧ Resource.authenticate Fixtures.env Fixtures.two_step_resource Fixtures.bare_get "GET"
    ≠ (ActorChallenge (challenge Fixtures.basic_auth), CHALLENGE).
Proof.
  split; [|split; [|split]].
  - repeat constructor.
  - reflexivity.
  - reflexivity.
  - intros H. apply (f_equal fst) in H. vm_compute in H.
    discriminate H.
Qed.

Lemma authenticate_challenge_of_last_witness :
  Resource.authenticate Fixtures.env Fixtures.two_step_resource Fixtures.bare_get "GET"
  = (ActorChallenge (challenge Fixtures.oauth_auth), CHALLENGE).
Proof.
  apply (authenticate_challenge_of_last Fixtures.env Fixtures.two_step_resource
           Fixtures.bare_get "GET" [Fixtures.basic_auth] Fixtures.oauth_auth).
  - reflexivity.
  - repeat constructor.
  - intros anon H. vm_compute in H. discriminate H.
Defined.

(** ** Request sanitisation *)

Lemma qd_keys_elem (q : gmap string (list string)) (k : string) :
  k ∈ qd_keys q ↔ is_Some (q !! k).
Proof.
  unfold qd_keys. rewrite list_elem_of_fmap. split.
  - intros [[k' v] [-> Hin]]. apply elem_of_map_to_list in Hin. by exists v.
  - intros [v Hv]. exists (k, v). split; [done|]. by apply elem_of_map_to_list.
Qed.

(** The popping loop removes exactly the prefixed keys it is given. *)
Lemma pop_oauth_keys_lookup (keys : list string)
    (sanitized : gmap string (list string)) (k : string) :
  Resource.pop_oauth_keys sanitized keys !! k
  = if startswith k "oauth_" && bool_decide (k ∈ keys) then None else sanitized !! k.
Proof.
  revert sanitized. induction keys as [|k0 keys IH]; intros sanitized.
  - simpl. by rewrite andb_false_r.
  - unfold Resource.pop_oauth_keys in *. cbn [foldl]. rewrite IH.
    destruct (startswith k "oauth_") eqn:Hk; cbn [andb].
    + destruct (decide (k = k0)) as [->|Hne].
      * rewrite Hk. rewrite (bool_decide_eq_true_2 (k0 ∈ k0 :: keys)) by left.
        case_bool_decide; [done|]. by rewrite lookup_delete_eq.
      * case_bool_decide as Hin.
        { rewrite bool_decide_eq_true_2; [done|]. by right. }
        rewrite bool_decide_eq_false_2.
        2:{ intros [?|?]%elem_of_cons; done. }
        destruct (startswith k0 "oauth_"); [by rewrite lookup_delete_ne|done].
    + destruct (startswith k0 "oauth_") eqn:Hk0; [|done].
      rewrite lookup_delete_ne; [done|]. intros ->. congruence.
Qed.

Lemma sanitize_block (q : gmap string (list string)) (k : string) :
  Resource.pop_oauth_keys q (qd_keys q) !! k
  = if startswith k "oauth_" then None else q !! k.
Proof.
  rewrite pop_oauth_keys_lookup.
  destruct (startswith k "oauth_") eqn:Hk; [|done]. cbn [andb].
  case_bool_decide as Hin; [done|].
  destruct (q !! k) eqn:Hq; [|done]. exfalso. apply Hin, qd_keys_elem. eauto.
Qed.

(** A block that fails the guard of [cleanup_request] has no prefixed key. *)
Lemma existsb_oauth_false (q : gmap string (list string)) (k : string) :
  existsb (λ k, startswith k "oauth_") (qd_keys q) = false →
  startswith k "oauth_" = true → q !! k = None.
Proof.
  intros Hex Hk. destruct (q !! k) as [v|] eqn:Hq; [|done].
  assert (Hin : k ∈ qd_keys q) by (apply qd_keys_elem; eauto).
  apply list_elem_of_In in Hin.
  assert (existsb (λ k, startswith k "oauth_") (qd_keys q) = true).
  { apply existsb_exists. eauto. }
  congruence.
Qed.

Lemma verb_block_cases (mt : string) :
  mt ∈ ["GET"; "PUT"; "POST"; "DELETE"] →
  mt = "GET" ∨ mt = "PUT" ∨ mt = "POST" ∨ mt = "DELETE".
Proof.
  intros Hmt. repeat (apply elem_of_cons in Hmt as [->|Hmt]); eauto.
  by apply elem_of_nil in Hmt.
Qed.

Lemma getattr_setattr_block (request : HttpRequest) (mt : string)
    (s : gmap string (list string)) :
  mt ∈ ["GET"; "PUT"; "POST"; "DELETE"] →
  Resource.getattr_block (Resource.setattr_block request mt s) mt = s.
Proof. intros [->|[->|[->| ->]]]%verb_block_cases; reflexivity. Qed.

Lemma getattr_setattr_block_ne (request : HttpRequest) (mt mt' : string)
    (s : gmap string (list string)) :
  mt ≠ mt' →
  Resource.getattr_block (Resource.setattr_block request mt s) mt'
  = Resource.getattr_block request mt'.
Proof.
  intros Hne. unfold Resource.setattr_block.
  repeat (case_bool_decide; [subst mt; unfold Resource.getattr_block;
     repeat (case_bool_decide; [congruence || reflexivity|]); reflexivity|]).
  reflexivity.
Qed.

Lemma cleanup_block_same (request : HttpRequest) (mt k : string) :
  mt ∈ ["GET"; "PUT"; "POST"; "DELETE"] →
  Resource.getattr_block (Resource.cleanup_block request mt) mt !! k
  = if startswith k "oauth_" then None else Resource.getattr_block request mt !! k.
Proof.
  intros Hmt. unfold Resource.cleanup_block.
  destruct (existsb _ _) eqn:Hex.
  - rewrite getattr_setattr_block by done. apply sanitize_block.
  - destruct (startswith k "oauth_") eqn:Hk; [|done].
    by apply existsb_oauth_false.
Qed.

Lemma cleanup_block_other (request : HttpRequest) (mt mt' : string) :
  mt ≠ mt' →
  Resource.getattr_block (Resource.cleanup_block request mt) mt'
  = Resource.getattr_block request mt'.
Proof.
  intros Hne. unfold Resource.cleanup_block.
  destruct (existsb _ _); [|done]. by apply getattr_setattr_block_ne.
Qed.

Lemma cleanup_block_frame (request : HttpRequest) (mt : string) :
  method (Resource.cleanup_block request mt) = method request
  ∧ META (Resource.cleanup_block request mt) = META request
  ∧ data (Resource.cleanup_block request mt) = data request.
Proof.
  unfold Resource.cleanup_block, Resource.setattr_block.
  destruct (existsb _ _); [|done].
  repeat (case_bool_decide; [done|]). done.
Qed.

Lemma cleanup_request_frame (request : HttpRequest) :
  method (Resource.cleanup_request request) = method request
  ∧ META (Resource.cleanup_request request) = META request
  ∧ data (Resource.cleanup_request request) = data request.
Proof.
  unfold Resource.cleanup_request. cbn [foldl].
  repeat match goal with
         | |- context [Resource.cleanup_block ?r ?mt] =>
             destruct (cleanup_block_frame r mt) as (-> & -> & ->)
         end.
  done.
Qed.

Lemma cleanup_request_blocks (request : HttpRequest) (mt k : string) :
  mt ∈ ["GET"; "PUT"; "POST"; "DELETE"] →
  Resource.getattr_block (Resource.cleanup_request request) mt !! k
  = if startswith k "oauth_" then None else Resource.getattr_block request mt !! k.
Proof.
  intros Hmt. pose proof Hmt as [->|[->|[->| ->]]]%verb_block_cases;
    unfold Resource.cleanup_request; cbn [foldl].
  - rewrite !cleanup_block_other by done. by apply cleanup_block_same.
  - rewrite !cleanup_block_other by done. rewrite cleanup_block_same by done.
    by rewrite cleanup_block_other.
  - rewrite !cleanup_block_other by done. rewrite cleanup_block_same by done.
    by rewrite !cleanup_block_other.
  - rewrite cleanup_block_same by done. by rewrite !cleanup_block_other.
Qed.

(** ** The invocation log *)

Lemma invocations_app (l1 l2 : list Event) :
  invocations (l1 ++ l2) = invocations l1 ++ invocations l2.
Proof.
  induction l1 as [|[r a k|h] l1 IH]; simpl; [done| |done]. by rewrite IH.
Qed.

Section Logs.
Context (P : HttpRequest → Prop).

Lemma calls_bind {A B} (m : M A) (k : A → M B) :
  calls_satisfy P m → (∀ a, calls_satisfy P (k a)) → calls_satisfy P (bind m k).
Proof.
  unfold calls_satisfy, bind. destruct m as [[a|r|e] t]; simpl; try done.
  intros Hm Hk. specialize (Hk a). destruct (k a) as [r t']. simpl in *.
  rewrite invocations_app. by apply Forall_app.
Qed.

Lemma calls_try_except {A} (body : M A) (handler : Exn → M A) :
  calls_satisfy P body → (∀ e, calls_satisfy P (handler e)) →
  calls_satisfy P (try_except body handler).
Proof.
  unfold calls_satisfy, try_except. destruct body as [[a|r|e] t]; simpl; try done.
  intros Hm Hk. specialize (Hk e). destruct (handler e) as [r t']. simpl in *.
  rewrite invocations_app. by apply Forall_app.
Qed.

Lemma calls_pure {A} (a : A) : calls_satisfy P (pure a).
Proof. constructor. Qed.

Lemma calls_return {A} (r : HttpResponse) : calls_satisfy P (@return_ A r).
Proof. constructor. Qed.

Lemma calls_raise {A} (e : Exn) : calls_satisfy P (@raise A e).
Proof. constructor. Qed.

Lemma calls_lift {A} (x : Exn + A) : calls_satisfy P (lift x).
Proof. destruct x; constructor. Qed.

Lemma calls_load_fast {A} (name : string) (v : option A) :
  calls_satisfy P (load_fast name v).
Proof. destruct v; constructor. Qed.

Lemma calls_email (html : string) : calls_satisfy P (emit (Emailed html)).
Proof. constructor. Qed.

Ltac calls :=
  repeat first
    [ apply calls_pure | apply calls_return | apply calls_raise
    | apply calls_lift | apply calls_load_fast | apply calls_email
    | apply calls_bind; [|intros ?]
    | apply calls_try_except; [|intros ?]
    | match goal with
      | |- calls_satisfy _ (match ?x with _ => _ end) => destruct x
      | |- calls_satisfy _ (if ?x then _ else _) => destruct x
      | |- calls_satisfy _ (let '(_, _) := ?x in _) => destruct x
      end ].

Context (env : Collaborators).

Lemma calls_crash_report {A} (self : Resource.t) (e : Exn) :
  calls_satisfy P (@Resource.crash_report env A self e).
Proof. unfold Resource.crash_report, Resource.email_exception. calls. Qed.

Lemma calls_error_handler (self : Resource.t) (e : Exn) (request : HttpRequest)
    (meth : HandlerMethod) (em : string) :
  calls_satisfy P (Resource.error_handler env self e request meth em).
Proof.
  unfold Resource.error_handler.
  destruct e; try apply calls_pure;
    (pose proof (@calls_crash_report Value self) as H;
     match goal with
     | |- context [Resource.crash_report env self ?e] => specialize (H e)
     end;
     unfold calls_satisfy in *;
     destruct (Resource.crash_report env self _) as [[?|?|?] ?]; exact H).
Qed.

Lemma calls_translate_body (rm : string) (request : HttpRequest) :
  calls_satisfy P (Resource.translate_body env rm request).
Proof. unfold Resource.translate_body. calls. Qed.

Lemma calls_first_render (self : Resource.t) (request : HttpRequest)
    (handler : Handler.t) (anonymous : Anonymity) (emitter : EmitterClass)
    (ct : string) (fields : list string) (result : Data) (sc : Z)
    (msg : option string) (e : option Exn) :
  calls_satisfy P (Resource.first_render env self request handler anonymous
                     emitter ct fields result sc msg e).
Proof. unfold Resource.first_render. calls; apply calls_crash_report. Qed.

Lemma calls_apply_range (self : Resource.t) (request : HttpRequest) (result : Data) :
  calls_satisfy P (Resource.apply_range self request result).
Proof.
  unfold Resource.apply_range, Resource.request_range_of, Resource.group_int. calls.
Qed.

Lemma calls_emit_response (self : Resource.t) (request : HttpRequest)
    (handler : Handler.t) (anonymous : Anonymity) (em : string) (result : Data)
    (sc : Z) (cr : option string) :
  calls_satisfy P (Resource.emit_response env self request handler anonymous
                     em result sc cr).
Proof. unfold Resource.emit_response. calls. Qed.

(** The one place where the handler method is called. *)
Lemma calls_invoke (self : Resource.t) (meth : HandlerMethod) (request : HttpRequest)
    (args : list string) (kwargs : gmap string string) (em : string) :
  P request → calls_satisfy P (Resource.invoke env self meth request args kwargs em).
Proof.
  intros HP. unfold Resource.invoke. apply calls_bind.
  - by constructor.
  - intros _. destruct (meth_call _ _ _ _); calls. apply calls_error_handler.
Qed.

End Logs.

(** ** The dispatcher *)

Section Call.
Context (env : Collaborators).

(** Whatever the path taken, the handler method only ever sees a request
    that went through [cleanup_request]. *)
Lemma call_body_calls (self : Resource.t) (request : HttpRequest)
    (args : list string) (kwargs : gmap string string) :
  calls_satisfy (λ r, ∃ r0, r = Resource.cleanup_request r0)
    (Resource.call_body env self request args kwargs).
Proof.
  unfold Resource.call_body.
  destruct (Resource.authenticate _ _ _ _) as [actor [b|]].
  2:{ destruct actor; constructor. }
  apply calls_bind; [apply calls_translate_body|intros request1].
  apply calls_bind; [destruct actor; constructor|intros h].
  destruct (negb _); [constructor|].
  destruct (Handler.getattr _ _) as [meth|]; [|constructor].
  apply calls_bind; [apply calls_invoke; eauto|intros [result e]].
  destruct (Emitter_get _ _) as [[emitter ct]|]; [|constructor].
  apply calls_bind.
  { destruct result as [d|[code c mt hd st]]; [constructor|].
    apply calls_bind; [|intros ?; constructor].
    case_bool_decide; [|constructor].
    apply calls_bind; [constructor|intros ?; constructor]. }
  intros [[sc res] msg].
  apply calls_bind; [apply calls_first_render|intros [[resp res1] msg1]].
  apply calls_bind; [apply calls_apply_range|intros [res2 cr]].
  apply calls_emit_response.
Qed.

Lemma call_invocations (self : Resource.t) (request : HttpRequest)
    (args : list string) (kwargs : gmap string string) (r : HttpRequest) :
  r ∈ invocations (Resource.__call__ env self request args kwargs).2 →
  ∃ r0, r = Resource.cleanup_request r0.
Proof.
  intros Hin. pose proof (call_body_calls self request args kwargs) as H.
  unfold calls_satisfy in H. rewrite Forall_forall in H. apply H.
  unfold Resource.__call__ in Hin.
  by destruct (Resource.call_body env self request args kwargs) as [[?|?|?] ?].
Qed.

Lemma callmap_outside (rm : string) :
  rm ∉ ["GET"; "POST"; "PUT"; "DELETE"] → Resource.callmap !! rm = None.
Proof.
  intros Hrm. unfold Resource.callmap.
  rewrite !lookup_insert_ne by (intros <-; apply Hrm; repeat constructor).
  apply lookup_empty.
Qed.

Lemma translate_body_other (rm : string) (request : HttpRequest) :
  rm ∉ ["POST"; "PUT"] → Resource.translate_body env rm request = pure request.
Proof.
  intros Hrm. unfold Resource.translate_body. by rewrite bool_decide_eq_false_2.
Qed.

(** C3 (amended): with the class's own [callmap], a request that passes
    authentication and whose verb is outside GET, POST, PUT, DELETE fails
    with NotFound when the handler declares the verb allowed, and is
    answered with 405 and the allowed verbs when it does not; the handler
    method is not invoked. *)
Theorem call_verb_outside_table (self : Resource.t) (request : HttpRequest)
    (args : list string) (kwargs : gmap string string) (h : Handler.t) (b : bool) :
  Resource.request_method request ∉ ["GET"; "POST"; "PUT"; "DELETE"] →
  Resource.authenticate env self request (Resource.request_method request)
  = (ActorHandler h, AnonFlag b) →
  Resource.__call__ env self request args kwargs
  = if bool_decide (Resource.request_method request ∈ Handler.allowed_methods h)
    then (Raised Http404, [])
    else (Returned (Resource.vary_on_headers env ["Authorization"]
                      (HttpResponseNotAllowed (Handler.allowed_methods h))), []).
Proof.
  intros Hrm Hauth.
  assert (Hput : Resource.request_method request ≠ "PUT").
  { intros Heq. apply Hrm. rewrite Heq. repeat constructor. }
  assert (Hpp : Resource.request_method request ∉ ["POST"; "PUT"]).
  { intros Hin. apply Hrm.
    apply elem_of_cons in Hin as [->|Hin]; [repeat constructor|].
    apply elem_of_cons in Hin as [->|Hin]; [repeat constructor|].
    by apply elem_of_nil in Hin. }
  unfold Resource.__call__, Resource.call_body, Resource.coerce_if_put.
  rewrite (bool_decide_eq_false_2 _ Hput), Hauth, (translate_body_other _ _ Hpp).
  cbn [bind pure]. rewrite (callmap_outside _ Hrm).
  case_bool_decide; reflexivity.
Qed.

(** C8 (amended): a POST that passes authentication and whose body fails to
    decode is answered with the fixed bad-request response at once, and the
    handler method is not invoked. *)
Theorem call_undecodable_post (self : Resource.t) (request : HttpRequest)
    (args : list string) (kwargs : gmap string string) :
  Resource.request_method request = "POST" →
  translate_mime env request = inl MimerDataException →
  (Resource.authenticate env self request "POST").2 ≠ CHALLENGE →
  Resource.__call__ env self request args kwargs
  = (Returned (Resource.vary_on_headers env ["Authorization"] rc_BAD_REQUEST), [])
  ∧ status_code (Resource.vary_on_headers env ["Authorization"] rc_BAD_REQUEST) = 400
  ∧ length (invocations (Resource.__call__ env self request args kwargs).2) = 0%nat.
Proof.
  intros Hrm Hdec Hauth.
  assert (Hcall : Resource.__call__ env self request args kwargs
                  = (Returned (Resource.vary_on_headers env ["Authorization"]
                                 rc_BAD_REQUEST), [])).
  { unfold Resource.__call__, Resource.call_body, Resource.coerce_if_put.
    rewrite Hrm. rewrite (bool_decide_eq_false_2 ("POST" = "PUT")) by done.
    destruct (Resource.authenticate env self request "POST") as [actor [b|]]; [|done].
    unfold Resource.translate_body.
    rewrite bool_decide_eq_true_2 by repeat constructor.
    rewrite Hdec. reflexivity. }
  rewrite Hcall. done.
Qed.

(** The first rendering block never falls through to the statements after
    it: [msg] is unbound when lines 221 and 223 read it. *)
Lemma first_render_never_completes (self : Resource.t) (request : HttpRequest)
    (handler : Handler.t) (anonymous : Anonymity) (emitter : EmitterClass)
    (ct : string) (fields : list string) (result : Data) (sc : Z)
    (e : option Exn) (v : HttpResponse * Data * option string) (log : list Event) :
  Resource.first_render env self request handler anonymous emitter ct fields
    result sc None e ≠ (Val v, log).
Proof.
  unfold Resource.first_render, try_except, Resource.crash_report,
    Resource.email_exception.
  destruct (if Resource.stream self then _ else _) as [x|s];
    cbn [lift bind raise pure].
  - destruct x; cbn; destruct (Resource.email_errors self),
      (Resource.display_errors self); cbn; congruence.
  - destruct (Resource.display_errors self) eqn:Hd; cbn; rewrite ?Hd;
      destruct (Resource.email_errors self); cbn; congruence.
Qed.

(** C1 (what the code does): for a request that authenticates, whose verb
    maps to an existing allowed method returning a plain value, whose format
    is registered and whose rendering succeeds, [__call__] never answers
    200: it answers 500 when errors are displayed and raises
    [UnboundLocalError] for [msg] otherwise. *)
Theorem call_plain_result (self : Resource.t) (request : HttpRequest)
    (args : list string) (kwargs : gmap string string) (h : Handler.t) (b : bool)
    (meth : HandlerMethod) (d : Data) (emitter : EmitterClass) (ct : string)
    (request1 : HttpRequest) :
  Resource.authenticate env self (Resource.coerce_if_put env request)
    (Resource.request_method request) = (ActorHandler h, AnonFlag b) →
  Resource.translate_body env (Resource.request_method request)
    (Resource.coerce_if_put env request) = pure request1 →
  Resource.request_method request ∈ Handler.allowed_methods h →
  Handler.getattr h (default EmptyString
                       (Resource.callmap !! Resource.request_method request))
  = Some meth →
  meth_call meth (Resource.cleanup_request request1) args
    (base.delete "emitter_format" kwargs) = inr (Plain d) →
  Emitter_get env (Resource.determine_emitter request1 args kwargs)
  = Some (emitter, ct) →
  (∀ fields, ∃ s,
     (if Resource.stream self
      then stream_render (emitter d (typemapper env) h fields (AnonFlag b))
             (Resource.cleanup_request request1)
      else render (emitter d (typemapper env) h fields (AnonFlag b))
             (Resource.cleanup_request request1)) = inr s) →
  match (Resource.__call__ env self request args kwargs).1 with
  | Returned r => Resource.display_errors self = true ∧ status_code r = 500
  | Raised e => Resource.display_errors self = false ∧ e = UnboundLocalError "msg"
  end.
Proof.
  intros Hauth Hbody Hallowed Hmeth Hcall Hemitter Hrender.
  unfold Resource.__call__, Resource.call_body.
  rewrite Hauth, Hbody. cbn [bind pure app].
  rewrite (bool_decide_eq_true_2 _ Hallowed). cbn [negb]. rewrite Hmeth.
  unfold Resource.invoke. cbn [bind emit]. rewrite Hcall. cbn [pure app].
  rewrite Hemitter. cbn [bind pure app].
  unfold Resource.first_render.
  match goal with
  | |- context [emitter d (typemapper env) h ?f (AnonFlag b)] =>
      destruct (Hrender f) as [s Hs]
  end.
  rewrite Hs.
  unfold try_except, Resource.crash_report, Resource.email_exception.
  cbn [lift bind raise pure load_fast app].
  destruct (Resource.display_errors self) eqn:Hd;
    cbn [lift bind raise pure load_fast app];
    rewrite ?Hd; destruct (Resource.email_errors self); cbn; done.
Qed.

End Call.

(** C9: [cleanup_request] removes every key with the prefix oauth_ from each
    of the GET, PUT, POST and DELETE blocks and leaves every other key of
    each block as it was (the rest of the request is untouched); and every
    request the handler method is invoked with has gone through
    [cleanup_request], so it carries no such key in any of the four
    blocks. *)
Theorem cleanup_request_strips_oauth (request : HttpRequest) :
  (∀ method_type k,
     method_type ∈ ["GET"; "PUT"; "POST"; "DELETE"] →
     Resource.getattr_block (Resource.cleanup_request request) method_type !! k
     = if startswith k "oauth_" then None
       else Resource.getattr_block request method_type !! k)
  ∧ (method (Resource.cleanup_request request) = method request
     ∧ META (Resource.cleanup_request request) = META request
     ∧ data (Resource.cleanup_request request) = data request)
  ∧ (∀ env self args kwargs r,
       r ∈ invocations (Resource.__call__ env self request args kwargs).2 →
       (∃ r0, r = Resource.cleanup_request r0)
       ∧ ∀ method_type k,
           method_type ∈ ["GET"; "PUT"; "POST"; "DELETE"] →
           startswith k "oauth_" = true →
           Resource.getattr_block r method_type !! k = None).
Proof.
  split; [|split].
  - intros method_type k Hmt. by apply cleanup_request_blocks.
  - apply cleanup_request_frame.
  - intros env self args kwargs r Hin.
    destruct (call_invocations env self request args kwargs r Hin) as [r0 ->].
    split; [by exists r0|].
    intros method_type k Hmt Hk. by rewrite cleanup_request_blocks, Hk.
Qed.

Lemma cleanup_request_strips_oauth_witness :
  Resource.getattr_block (Resource.cleanup_request Fixtures.signed_get) "GET"
    !! "oauth_token"
  = (if startswith "oauth_token" "oauth_" then None
     else Resource.getattr_block Fixtures.signed_get "GET" !! "oauth_token")
  ∧ Resource.getattr_block (Resource.cleanup_request Fixtures.signed_get) "GET"
      !! "page"
    = (if startswith "page" "oauth_" then None
       else Resource.getattr_block Fixtures.signed_get "GET" !! "page").
Proof.
  split.
  - apply (proj1 (cleanup_request_strips_oauth Fixtures.signed_get) "GET" "oauth_token").
    repeat constructor.
  - apply (proj1 (cleanup_request_strips_oauth Fixtures.signed_get) "GET" "page").
    repeat constructor.
Defined.

(** ** The dispatcher on concrete requests *)

(** C3, as stated, fails: PATCH on a handler that allows only GET and POST
    is answered with 405, not with NotFound. *)
Lemma call_patch_not_allowed_counterexample :
  Resource.request_method Fixtures.patch_request = "PATCH"
  ∧ Resource.__call__ Fixtures.env (Fixtures.open_resource Fixtures.object_handler)
      Fixtures.patch_request [] ∅
    = (Returned (Resource.vary_on_headers Fixtures.env ["Authorization"]
                   (HttpResponseNotAllowed ["GET"; "POST"])), [])
  ∧ (Resource.__call__ Fixtures.env (Fixtures.open_resource Fixtures.object_handler)
       Fixtures.patch_request [] ∅).1 ≠ Raised Http404.
Proof. split; [reflexivity|]. split; [by vm_compute|]. by vm_compute. Qed.

Lemma call_verb_outside_table_witness :
  Resource.__call__ Fixtures.env (Fixtures.open_resource Fixtures.patch_handler)
    Fixtures.patch_request [] ∅
  = if bool_decide (Resource.request_method Fixtures.patch_request
                    ∈ Handler.allowed_methods Fixtures.patch_handler)
    then (Raised Http404, [])
    else (Returned (Resource.vary_on_headers Fixtures.env ["Authorization"]
                      (HttpResponseNotAllowed
                         (Handler.allowed_methods Fixtures.patch_handler))), []).
Proof.
  apply (call_verb_outside_table Fixtures.env
           (Fixtures.open_resource Fixtures.patch_handler) Fixtures.patch_request
           [] ∅ Fixtures.patch_handler false).
  - vm_compute. intros Hin. repeat (apply elem_of_cons in Hin as [Hin|Hin];
      [discriminate Hin|]). by apply elem_of_nil in Hin.
  - reflexivity.
Defined.

(** C8, as stated, fails: an undecodable POST that does not authenticate is
    answered with the strategy's challenge, not with 400. *)
Lemma call_undecodable_post_challenge_counterexample :
  Resource.request_method Fixtures.broken_post = "POST"
  ∧ translate_mime Fixtures.env Fixtures.broken_post = inl MimerDataException
  ∧ Resource.__call__ Fixtures.env Fixtures.guarded_resource Fixtures.broken_post [] ∅
    = (Returned (Resource.vary_on_headers Fixtures.env ["Authorization"]
                   (Fixtures.http_401 "Basic")), [])
  ∧ status_code (Resource.vary_on_headers Fixtures.env ["Authorization"]
                   (Fixtures.http_401 "Basic")) ≠ 400.
Proof.
  split; [reflexivity|]. split; [reflexivity|]. split; [by vm_compute|].
  by vm_compute.
Qed.

Lemma call_undecodable_post_witness :
  Resource.__call__ Fixtures.env (Fixtures.open_resource Fixtures.object_handler)
    Fixtures.broken_post [] ∅
  = (Returned (Resource.vary_on_headers Fixtures.env ["Authorization"] rc_BAD_REQUEST), [])
  ∧ status_code (Resource.vary_on_headers Fixtures.env ["Authorization"] rc_BAD_REQUEST)
    = 400
  ∧ length (invocations
              (Resource.__call__ Fixtures.env
                 (Fixtures.open_resource Fixtures.object_handler)
                 Fixtures.broken_post [] ∅).2) = 0%nat.
Proof.
  apply (call_undecodable_post Fixtures.env
           (Fixtures.open_resource Fixtures.object_handler) Fixtures.broken_post [] ∅).
  - reflexivity.
  - reflexivity.
  - vm_compute. discriminate.
Defined.

Lemma call_plain_result_witness :
  match (Resource.__call__ Fixtures.env (Fixtures.open_resource Fixtures.object_handler)
           Fixtures.bare_get [] ∅).1 with
  | Returned r =>
      Resource.display_errors (Fixtures.open_resource Fixtures.object_handler) = true
      ∧ status_code r = 500
  | Raised e =>
      Resource.display_errors (Fixtures.open_resource Fixtures.object_handler) = false
      ∧ e = UnboundLocalError "msg"
  end.
Proof.
  apply (call_plain_result Fixtures.env (Fixtures.open_resource Fixtures.object_handler)
           Fixtures.bare_get [] ∅ Fixtures.object_handler false Fixtures.read_object
           (DObj "entry") Fixtures.json_emitter "application/json" Fixtures.bare_get).
  - reflexivity.
  - reflexivity.
  - vm_compute. repeat constructor.
  - reflexivity.
  - reflexivity.
  - reflexivity.
  - intros fields. eexists. reflexivity.
Defined.

(** ** Range handling, and the requests that never reach it *)

Section RangeBlock.
Context (env : Collaborators).

(** Lines 264-288 on a range header that does not start with items= once
    stripped: the local [request_range] stays [None], whatever the paging
    parameters are. *)
Lemma request_range_foreign_header (self : Resource.t) (request : HttpRequest)
    (v : string) :
  META request !! "HTTP_RANGE" = Some v →
  startswith (strip v) "items=" = false →
  Resource.request_range_of self request = pure None.
Proof.
  intros Hmeta Hprefix. unfold Resource.request_range_of.
  by rewrite Hmeta, Hprefix.
Qed.

Lemma apply_range_foreign_header (self : Resource.t) (request : HttpRequest)
    (v : string) (result : Data) :
  META request !! "HTTP_RANGE" = Some v →
  startswith (strip v) "items=" = false →
  Resource.apply_range self request result = pure (result, None).
Proof.
  intros Hmeta Hprefix. unfold Resource.apply_range.
  destruct result; try reflexivity.
  by rewrite (request_range_foreign_header _ _ _ Hmeta Hprefix).
Qed.

(** Lines 376-405 without a content range: the status is the one carried
    over and no Content-Range header is set. *)
Lemma emit_response_without_range (self : Resource.t) (request : HttpRequest)
    (handler : Handler.t) (anonymous : Anonymity) (em : string) (result : Data)
    (sc : Z) (emitter : EmitterClass) (ct text : string) :
  Emitter_get env em = Some (emitter, ct) →
  (∀ fields,
     (if Resource.stream self
      then stream_render (emitter result (typemapper env) handler fields anonymous) request
      else render (emitter result (typemapper env) handler fields anonymous) request)
     = inr (SText text)) →
  ∃ resp,
    Resource.emit_response env self request handler anonymous em result sc None
    = return_ resp
    ∧ status_code resp = sc
    ∧ _container resp = DList [text]
    ∧ headers resp !! "Content-Range" = None.
Proof.
  intros Hem Hrender. unfold Resource.emit_response. rewrite Hem, Hrender.
  eexists. split; [reflexivity|]. by cbn.
Qed.

End RangeBlock.

(** Run on their own, lines 253-405 do slice a collection of a hundred rows
    to rows 10 to 14 for offset=10 and limit=5, and answer 206 with the
    content range. *)
Lemma range_block_offset_limit :
  Resource.apply_range (Fixtures.open_resource Fixtures.rows_handler)
    Fixtures.paged_get (DQuerySet Fixtures.rows100)
  = pure (DQuerySet ["10"; "11"; "12"; "13"; "14"], Some "items 10-14/100")
  ∧ Resource.emit_response Fixtures.env (Fixtures.open_resource Fixtures.rows_handler)
      Fixtures.paged_get Fixtures.rows_handler (AnonFlag false) "json"
      (DQuerySet ["10"; "11"; "12"; "13"; "14"]) 200 (Some "items 10-14/100")
    = return_ {| status_code := 206;
                 _container := DList ["[10, 11, 12, 13, 14]"];
                 mimetype := Some "application/json";
                 headers := {[ "Content-Range" := "items 10-14/100" ]};
                 streaming := false |}.
Proof. split; by vm_compute. Qed.

(** C7 (what the code does): the GET on a hundred rows with offset=10 and
    limit=5 invokes the handler method and is then answered with 500 and no
    Content-Range header, the first rendering block failing on the unbound
    [msg]; with error display off, the same request raises. *)
Theorem call_paged_collection :
  Resource.__call__ Fixtures.env (Fixtures.open_resource Fixtures.rows_handler)
    Fixtures.paged_get [] ∅
  = (Returned {| status_code := 500; _container := DList ["Traceback"];
                 mimetype := None; headers := {[ "Vary" := "Authorization" ]};
                 streaming := false |},
     [Invoked Fixtures.paged_get [] ∅; Emailed "<html>Traceback</html>"])
  ∧ (Resource.__call__ Fixtures.env
       (Fixtures.resource Fixtures.rows_handler [Fixtures.open_auth] false)
       Fixtures.paged_get [] ∅).1
    = Raised (UnboundLocalError "msg").
Proof. split; by vm_compute. Qed.

(** C10 (what the code does): the GET on a hundred rows with a range header
    in bytes and valid offset and limit parameters is answered with 500, not
    with the collection; with error display off it raises. *)
Theorem call_foreign_range_header :
  META Fixtures.foreign_range_get !! "HTTP_RANGE" = Some "bytes=0-9"
  ∧ startswith (strip "bytes=0-9") "items=" = false
  ∧ Resource.__call__ Fixtures.env (Fixtures.open_resource Fixtures.rows_handler)
      Fixtures.foreign_range_get [] ∅
    = (Returned {| status_code := 500; _container := DList ["Traceback"];
                   mimetype := None; headers := {[ "Vary" := "Authorization" ]};
                   streaming := false |},
       [Invoked Fixtures.foreign_range_get [] ∅; Emailed "<html>Traceback</html>"])
  ∧ (Resource.__call__ Fixtures.env
       (Fixtures.resource Fixtures.rows_handler [Fixtures.open_auth] false)
       Fixtures.foreign_range_get [] ∅).1
    = Raised (UnboundLocalError "msg").
Proof. repeat split; by vm_compute. Qed.

(** Run on their own, lines 253-405 leave such a collection whole. *)
Lemma range_block_foreign_header :
  Resource.apply_range (Fixtures.open_resource Fixtures.rows_handler)
    Fixtures.foreign_range_get (DQuerySet Fixtures.rows100)
  = pure (DQuerySet Fixtures.rows100, None).
Proof.
  apply (apply_range_foreign_header _ _ "bytes=0-9"); reflexivity.
Qed.

(** * Further properties *)

(** ** The range resolver *)

(** X1: a negative start or a negative end is refused as a negative range,
    whatever the other bound and the total are. *)
Theorem get_range_negative_refused (start end_ : option Z) (total : Z) :
  (∃ s, start = Some s ∧ s < 0) ∨ (∃ e, end_ = Some e ∧ e < 0) →
  get_range start end_ total = inl (BadRangeException "negative ranges not allowed").
Proof.
  unfold get_range, get_range_locals.
  intros [(s & -> & Hs)|(e & -> & He)].
  - destruct (Z.ltb_spec s 0); [reflexivity|lia].
  - destruct start as [s|]; range_cases; try reflexivity; lia.
Qed.

Lemma get_range_negative_refused_witness :
  get_range (Some 3) (Some (-1)) 0
  = inl (BadRangeException "negative ranges not allowed").
Proof.
  apply (get_range_negative_refused (Some 3) (Some (-1)) 0).
  right. exists (-1). split; [reflexivity|lia].
Defined.

(** X2: [get_range] returns a range exactly when the start, if given, is
    between 0 and total - 1 and not after a given end, or when only an end
    that is not negative is given; with neither bound it always fails. *)
Theorem get_range_succeeds_iff (start end_ : option Z) (total : Z) :
  (∃ s e, get_range start end_ total = inr (s, e))
  ↔ match start, end_ with
    | Some s, Some e => 0 ≤ s ∧ s ≤ total - 1 ∧ s ≤ e
    | Some s, None => 0 ≤ s ∧ s ≤ total - 1
    | None, Some e => 0 ≤ e
    | None, None => False
    end.
Proof.
  unfold get_range, get_range_locals.
  destruct start as [s|], end_ as [e|]; range_cases; simpl; split;
    try (intros (? & ? & [=])); try lia; try (intros _; eauto); try tauto.
Qed.

Lemma get_range_succeeds_iff_witness :
  ∃ s e, get_range (Some 7) (Some 150) 100 = inr (s, e).
Proof. apply (get_range_succeeds_iff (Some 7) (Some 150) 100). lia. Defined.

(** X3: a returned range that is not empty is a fixed point: resolving it
    again, as start and end, returns it unchanged. *)
Theorem get_range_fixed_point (start end_ : option Z) (total s e : Z) :
  get_range start end_ total = inr (s, e) → s ≤ e →
  get_range (Some s) (Some e) total = inr (s, e).
Proof.
  unfold get_range, get_range_locals.
  destruct start as [rs|], end_ as [re|]; range_cases; simpl;
    intros [= <- <-] || intros [=]; intros Hle; range_cases; simpl;
    try reflexivity; lia.
Qed.

Lemma get_range_fixed_point_witness :
  get_range (Some 40) (Some 49) 50 = inr (40, 49).
Proof.
  apply (get_range_fixed_point None (Some 10) 50 40 49); [reflexivity|lia].
Defined.

(** X4: a tail request for n items on a collection of total items resolves
    to a range that ends at the last item and spans min(n, total) items. *)
Theorem get_range_tail_count (n total : Z) :
  0 ≤ n → 0 ≤ total →
  ∃ s e, get_range None (Some n) total = inr (s, e)
         ∧ e = total - 1 ∧ e - s + 1 = Z.min n total.
Proof.
  intros Hn Ht. unfold get_range, get_range_locals.
  range_cases; simpl; try lia; eexists _, _; (split; [reflexivity|lia]).
Qed.

Lemma get_range_tail_count_witness :
  ∃ s e, get_range None (Some 60) 50 = inr (s, e)
         ∧ e = 50 - 1 ∧ e - s + 1 = Z.min 60 50.
Proof. apply (get_range_tail_count 60 50); lia. Defined.

Lemma get_range_errors (start end_ : option Z) (total : Z) (e : Exn) :
  get_range start end_ total = inl e → ∃ value, e = BadRangeException value.
Proof.
  unfold get_range, get_range_locals.
  destruct start as [rs|], end_ as [re|]; range_cases; simpl; intros [= <-]; eauto.
Qed.

Lemma get_range_slice_ok (start end_ : option Z) (rows : list string) (s e : Z) :
  get_range start end_ (Z.of_nat (length rows)) = inr (s, e) →
  Resource.qs_slice rows s (e + 1)
  = inr (take (Z.to_nat (e - s + 1)) (drop (Z.to_nat s) rows)).
Proof.
  unfold get_range, get_range_locals, Resource.qs_slice.
  destruct start as [rs|], end_ as [re|]; range_cases; simpl;
    intros [= <- <-] || intros [=]; range_cases; simpl; try lia;
    do 2 f_equal; lia.
Qed.

(** X5: slicing a collection with a range resolved against its own count
    never hits a negative index, and yields exactly end - start + 1 rows,
    the number the content range announces. *)
Theorem get_range_slice (start end_ : option Z) (rows : list string) (s e : Z) :
  get_range start end_ (Z.of_nat (length rows)) = inr (s, e) →
  ∃ sliced, Resource.qs_slice rows s (e + 1) = inr sliced
            ∧ sliced = take (Z.to_nat (e - s + 1)) (drop (Z.to_nat s) rows)
            ∧ Z.of_nat (length sliced) = e - s + 1.
Proof.
  intros Hr. eexists. split; [by apply (get_range_slice_ok start end_)|].
  split; [done|]. revert Hr. unfold get_range, get_range_locals.
  destruct start as [rs|], end_ as [re|]; range_cases; simpl;
    intros [= <- <-] || intros [=]; rewrite length_take, length_drop; lia.
Qed.

Lemma get_range_slice_witness :
  ∃ sliced, Resource.qs_slice Fixtures.rows100 10 (14 + 1) = inr sliced
            ∧ sliced = take (Z.to_nat (14 - 10 + 1)) (drop (Z.to_nat 10) Fixtures.rows100)
            ∧ Z.of_nat (length sliced) = 14 - 10 + 1.
Proof.
  apply (get_range_slice (Some 10) (Some 14) Fixtures.rows100 10 14). reflexivity.
Defined.

(** ** The authenticator chain and the constructor *)

Section AuthenticateMore.
Context (env : Collaborators).

Lemma authenticate_loop_some_accepts (self : Resource.t) (request : HttpRequest)
    (rm : string) (authenticators : list Authenticator) (locals : Actor * Anonymity) :
  Exists (λ a, is_authenticated a request = true) authenticators →
  Resource.authenticate_loop env self request rm authenticators locals
  = (ActorHandler (Resource.handler self),
     AnonFlag (Handler.is_anonymous (Resource.handler self))).
Proof.
  intros Hex. revert locals.
  induction authenticators as [|a rest IH]; intros locals;
    [by apply Exists_nil in Hex|].
  cbn [Resource.authenticate_loop].
  destruct (is_authenticated a request) eqn:Ha; cbn [negb]; [reflexivity|].
  apply Exists_cons in Hex as [Hex|Hex]; [congruence|].
  destruct (Resource.anonymous env self) as [anon|]; [case_bool_decide|];
    by apply IH.
Qed.

(** X6: as soon as one strategy authenticates the request, [authenticate]
    returns the bound handler with its own anonymity flag, whatever the
    strategies before it answered and whether or not an anonymous variant
    exists. *)
Theorem authenticate_short_circuit (self : Resource.t) (request : HttpRequest)
    (rm : string) :
  Exists (λ a, is_authenticated a request = true) (Resource.authentication self) →
  Resource.authenticate env self request rm
  = (ActorHandler (Resource.handler self),
     AnonFlag (Handler.is_anonymous (Resource.handler self))).
Proof. intros Hex. by apply authenticate_loop_some_accepts. Qed.

Lemma authenticate_loop_anonymous (self : Resource.t) (request : HttpRequest)
    (rm : string) (authenticators : list Authenticator)
    (locals : Actor * Anonymity) (anon : Handler.t) :
  Forall (λ a, is_authenticated a request = false) authenticators →
  Resource.anonymous env self = Some anon →
  rm ∈ Handler.allowed_methods anon →
  Resource.authenticate_loop env self request rm authenticators locals
  = if bool_decide (authenticators = []) then locals
    else (ActorHandler anon, AnonFlag true).
Proof.
  intros Hall Hanon Hrm. revert locals.
  induction Hall as [|a rest Ha Hrest IH]; intros locals; [reflexivity|].
  cbn [Resource.authenticate_loop]. rewrite Ha, Hanon. cbn [negb].
  rewrite (bool_decide_eq_true_2 _ Hrm), IH.
  rewrite (bool_decide_eq_false_2 (a :: rest = [])) by done.
  by case_bool_decide.
Qed.

(** X7: when no strategy authenticates the request and the anonymous variant
    declares the verb, [authenticate] returns the anonymous handler with
    anonymity True. *)
Theorem authenticate_anonymous_fallback (self : Resource.t) (request : HttpRequest)
    (rm : string) (anon : Handler.t) :
  Resource.authentication self ≠ [] →
  Forall (λ a, is_authenticated a request = false) (Resource.authentication self) →
  Resource.anonymous env self = Some anon →
  rm ∈ Handler.allowed_methods anon →
  Resource.authenticate env self request rm = (ActorHandler anon, AnonFlag true).
Proof.
  intros Hne Hall Hanon Hrm. unfold Resource.authenticate.
  rewrite (authenticate_loop_anonymous _ _ _ _ _ _ Hall Hanon Hrm).
  by rewrite bool_decide_eq_false_2.
Qed.

Lemma authenticate_loop_shapes (self : Resource.t) (request : HttpRequest)
    (rm : string) (authenticators : list Authenticator) (locals : Actor * Anonymity) :
  (Resource.authenticate_loop env self request rm authenticators locals = locals
   ∧ authenticators = [])
  ∨ Resource.authenticate_loop env self request rm authenticators locals
    = (ActorHandler (Resource.handler self),
       AnonFlag (Handler.is_anonymous (Resource.handler self)))
  ∨ (∃ anon, Resource.anonymous env self = Some anon
             ∧ rm ∈ Handler.allowed_methods anon
             ∧ Resource.authenticate_loop env self request rm authenticators locals
               = (ActorHandler anon, AnonFlag true))
  ∨ (∃ a, a ∈ authenticators ∧ is_authenticated a request = false
          ∧ Resource.authenticate_loop env self request rm authenticators locals
            = (ActorChallenge (challenge a), CHALLENGE)).
Proof.
  revert locals. induction authenticators as [|a rest IH]; intros locals; [by left|].
  right. cbn [Resource.authenticate_loop].
  destruct (is_authenticated a request) eqn:Ha; cbn [negb]; [by left|].
  assert (Hgo : ∀ l,
    l = (ActorChallenge (challenge a), CHALLENGE)
    ∨ (∃ anon, Resource.anonymous env self = Some anon
               ∧ rm ∈ Handler.allowed_methods anon
               ∧ l = (ActorHandler anon, AnonFlag true)) →
    Resource.authenticate_loop env self request rm rest l
    = (ActorHandler (Resource.handler self),
       AnonFlag (Handler.is_anonymous (Resource.handler self)))
    ∨ (∃ anon, Resource.anonymous env self = Some anon
               ∧ rm ∈ Handler.allowed_methods anon
               ∧ Resource.authenticate_loop env self request rm rest l
                 = (ActorHandler anon, AnonFlag true))
    ∨ (∃ a', a' ∈ a :: rest ∧ is_authenticated a' request = false
             ∧ Resource.authenticate_loop env self request rm rest l
               = (ActorChallenge (challenge a'), CHALLENGE))).
  { intros l Hl. destruct (IH l) as [[Heq ->]|[H|[H|(a' & Hin & Hf & H)]]].
    - simpl. destruct Hl as [->|(anon & Han & Hrm & ->)].
      + right. right. exists a. split; [left|done].
      + right. left. eauto.
    - by left.
    - right. by left.
    - right. right. exists a'. split; [by right|done]. }
  destruct (Resource.anonymous env self) as [anon|] eqn:Han.
  - case_bool_decide; apply Hgo; [right; eauto|by left].
  - apply Hgo. by left.
Qed.

Lemma authenticate_cases (self : Resource.t) (request : HttpRequest) (rm : string) :
  Resource.authentication self ≠ [] →
  Resource.authenticate env self request rm
  = (ActorHandler (Resource.handler self),
     AnonFlag (Handler.is_anonymous (Resource.handler self)))
  ∨ (∃ anon, Resource.anonymous env self = Some anon
             ∧ rm ∈ Handler.allowed_methods anon
             ∧ Resource.authenticate env self request rm
               = (ActorHandler anon, AnonFlag true))
  ∨ (∃ a, a ∈ Resource.authentication self ∧ is_authenticated a request = false
          ∧ Resource.authenticate env self request rm
            = (ActorChallenge (challenge a), CHALLENGE)).
Proof.
  intros Hne. unfold Resource.authenticate.
  destruct (authenticate_loop_shapes self request rm (Resource.authentication self)
              (ActorFalse, AnonFlag true)) as [[_ ?]|H]; [done|exact H].
Qed.

(** X8: with at least one strategy configured, [authenticate] returns one
    of three things: the bound handler with its own flag; the anonymous
    handler, allowed for the verb, with True; or the challenge of a strategy
    that refused the request, with [CHALLENGE].  The actor is never
    [False], and [CHALLENGE] only ever comes with a challenge. *)
Theorem authenticate_shapes (self : Resource.t) (request : HttpRequest) (rm : string) :
  Resource.authentication self ≠ [] →
  Resource.authenticate env self request rm
  = (ActorHandler (Resource.handler self),
     AnonFlag (Handler.is_anonymous (Resource.handler self)))
  ∨ (∃ anon, Resource.anonymous env self = Some anon
             ∧ rm ∈ Handler.allowed_methods anon
             ∧ Resource.authenticate env self request rm
               = (ActorHandler anon, AnonFlag true))
  ∨ (∃ a, a ∈ Resource.authentication self ∧ is_authenticated a request = false
          ∧ Resource.authenticate env self request rm
            = (ActorChallenge (challenge a), CHALLENGE)).
Proof. apply authenticate_cases. Qed.

(** X9: [__init__] fails only on a handler that is not callable or on a
    tuple of paging parameters with fewer than two names; the resource it
    builds has at least one authentication strategy (the default one when
    none, or an empty sequence, is passed; a single one wrapped; a
    non-empty sequence kept as it is), so [authenticate] never leaves the
    actor at [False] on it. *)
Theorem init_authentication (settings : Construction.Settings)
    (NoAuthentication : Authenticator) (handler : Construction.HandlerArg)
    (authentication : Construction.AuthenticationArg) (self : Resource.t)
    (csrf_exempt : bool) :
  Construction.__init__ settings NoAuthentication handler authentication
  = inr (self, csrf_exempt) →
  handler = Construction.HandlerClass (Resource.handler self)
  ∧ Resource.authentication self ≠ []
  ∧ Resource.authentication self
    = match authentication with
      | Construction.AuthNone => [NoAuthentication]
      | Construction.AuthSequence l => if bool_decide (l = []) then [NoAuthentication] else l
      | Construction.AuthSingle a => [a]
      end
  ∧ ∀ request rm, (Resource.authenticate env self request rm).1 ≠ ActorFalse.
Proof.
  unfold Construction.__init__. destruct handler as [h|]; [|done].
  destruct (_ !! 0%nat) as [po|]; [|done].
  destruct (_ !! 1%nat) as [pl|]; [|done].
  intros [= <- <-]. cbn [Resource.handler].
  split; [done|].
  match goal with
  | |- Resource.authentication ?s ≠ [] ∧ _ =>
      assert (Hne : Resource.authentication s ≠ [])
        by (by destruct authentication as [|[|a l]|a])
  end.
  split; [exact Hne|]. split.
  { by destruct authentication as [|[|a l]|a]. }
  intros request rm.
  match goal with
  | |- (Resource.authenticate env ?s request rm).1 ≠ _ =>
      destruct (authenticate_cases s request rm Hne)
        as [->|[(anon & _ & _ & ->)|(a & _ & _ & ->)]]
  end; done.
Qed.

End AuthenticateMore.

Lemma authenticate_short_circuit_witness :
  Resource.authenticate Fixtures.env Fixtures.two_step_resource Fixtures.signed_get "GET"
  = (ActorHandler (Resource.handler Fixtures.two_step_resource),
     AnonFlag (Handler.is_anonymous (Resource.handler Fixtures.two_step_resource))).
Proof.
  apply (authenticate_short_circuit Fixtures.env Fixtures.two_step_resource
           Fixtures.signed_get "GET").
  apply Exists_cons_tl, Exists_cons_hd. reflexivity.
Defined.

Lemma authenticate_anonymous_fallback_witness :
  Resource.authenticate Fixtures.env Samples.public_resource Fixtures.bare_get "GET"
  = (ActorHandler Samples.anonymous_rows, AnonFlag true).
Proof.
  apply (authenticate_anonymous_fallback Fixtures.env Samples.public_resource
           Fixtures.bare_get "GET" Samples.anonymous_rows).
  - discriminate.
  - repeat constructor.
  - reflexivity.
  - repeat constructor.
Defined.

Lemma authenticate_shapes_witness :
  Resource.authenticate Fixtures.env Samples.public_resource Fixtures.bare_get "POST"
  = (ActorHandler (Resource.handler Samples.public_resource),
     AnonFlag (Handler.is_anonymous (Resource.handler Samples.public_resource)))
  ∨ (∃ anon, Resource.anonymous Fixtures.env Samples.public_resource = Some anon
             ∧ "POST" ∈ Handler.allowed_methods anon
             ∧ Resource.authenticate Fixtures.env Samples.public_resource
                 Fixtures.bare_get "POST"
               = (ActorHandler anon, AnonFlag true))
  ∨ (∃ a, a ∈ Resource.authentication Samples.public_resource
          ∧ is_authenticated a Fixtures.bare_get = false
          ∧ Resource.authenticate Fixtures.env Samples.public_resource
              Fixtures.bare_get "POST"
            = (ActorChallenge (challenge a), CHALLENGE)).
Proof.
  apply (authenticate_shapes Fixtures.env Samples.public_resource Fixtures.bare_get "POST").
  discriminate.
Defined.

Lemma init_authentication_witness :
  Construction.HandlerClass Fixtures.object_handler
  = Construction.HandlerClass
      (Resource.handler (Fixtures.resource Fixtures.object_handler [Fixtures.open_auth] true))
  ∧ Resource.authentication
      (Fixtures.resource Fixtures.object_handler [Fixtures.open_auth] true) ≠ []
  ∧ Resource.authentication
      (Fixtures.resource Fixtures.object_handler [Fixtures.open_auth] true)
    = [Fixtures.open_auth]
  ∧ ∀ request rm,
      (Resource.authenticate Fixtures.env
         (Fixtures.resource Fixtures.object_handler [Fixtures.open_auth] true)
         request rm).1 ≠ ActorFalse.
Proof.
  apply (init_authentication Fixtures.env Samples.no_settings Fixtures.open_auth
           (Construction.HandlerClass Fixtures.object_handler) Construction.AuthNone
           (Fixtures.resource Fixtures.object_handler [Fixtures.open_auth] true) true).
  reflexivity.
Defined.

(** ** Request sanitisation, continued *)

Lemma existsb_oauth_clean (q : gmap string (list string)) :
  (∀ k, startswith k "oauth_" = true → q !! k = None) →
  existsb (λ k, startswith k "oauth_") (qd_keys q) = false.
Proof.
  intros Hclean. destruct (existsb _ _) eqn:Hex; [|done].
  apply existsb_exists in Hex as (k & Hin & Hk).
  apply list_elem_of_In, qd_keys_elem in Hin as [v Hv].
  rewrite (Hclean k Hk) in Hv. done.
Qed.

Lemma cleanup_block_clean (request : HttpRequest) (mt : string) :
  (∀ k, startswith k "oauth_" = true →
        Resource.getattr_block request mt !! k = None) →
  Resource.cleanup_block request mt = request.
Proof.
  intros Hclean. unfold Resource.cleanup_block.
  by rewrite (existsb_oauth_clean _ Hclean).
Qed.

Lemma cleanup_request_clean (request : HttpRequest) :
  (∀ mt k, mt ∈ ["GET"; "PUT"; "POST"; "DELETE"] → startswith k "oauth_" = true →
           Resource.getattr_block request mt !! k = None) →
  Resource.cleanup_request request = request.
Proof.
  intros Hclean. unfold Resource.cleanup_request. cbn [foldl].
  rewrite (cleanup_block_clean request "GET")
    by (intros; apply Hclean; [repeat constructor|done]).
  rewrite (cleanup_block_clean request "PUT")
    by (intros; apply Hclean; [repeat constructor|done]).
  rewrite (cleanup_block_clean request "POST")
    by (intros; apply Hclean; [repeat constructor|done]).
  apply cleanup_block_clean. intros; apply Hclean; [repeat constructor|done].
Qed.

(** X10: a request none of whose four blocks holds a key with the prefix
    comes back from [cleanup_request] as it went in: no block is copied and
    no attribute is set. *)
Theorem cleanup_request_clean_identity (request : HttpRequest) :
  (∀ mt k, mt ∈ ["GET"; "PUT"; "POST"; "DELETE"] → startswith k "oauth_" = true →
           Resource.getattr_block request mt !! k = None) →
  Resource.cleanup_request request = request.
Proof. apply cleanup_request_clean. Qed.

Lemma cleanup_request_clean_identity_witness :
  Resource.cleanup_request Fixtures.bare_get = Fixtures.bare_get.
Proof.
  apply (cleanup_request_clean_identity Fixtures.bare_get).
  intros mt k [->|[->|[->| ->]]]%verb_block_cases _; apply lookup_empty.
Defined.

(** X11: [cleanup_request] is idempotent. *)
Theorem cleanup_request_idempotent (request : HttpRequest) :
  Resource.cleanup_request (Resource.cleanup_request request)
  = Resource.cleanup_request request.
Proof.
  apply cleanup_request_clean. intros mt k Hmt Hk.
  by rewrite cleanup_request_blocks, Hk.
Qed.

Lemma cleanup_block_PUT_absent (request : HttpRequest) (mt : string) :
  PUT request = None → PUT (Resource.cleanup_block request mt) = None.
Proof.
  intros Hput. unfold Resource.cleanup_block.
  destruct (existsb _ _) eqn:Hex; [|done].
  unfold Resource.setattr_block, Resource.getattr_block in *.
  repeat (case_bool_decide; [subst; try done|]); try done.
  rewrite Hput in Hex. simpl in Hex. unfold qd_keys in Hex.
  rewrite map_to_list_empty in Hex. done.
Qed.

Lemma cleanup_block_DELETE_absent (request : HttpRequest) (mt : string) :
  DELETE request = None → DELETE (Resource.cleanup_block request mt) = None.
Proof.
  intros Hdel. unfold Resource.cleanup_block.
  destruct (existsb _ _) eqn:Hex; [|done].
  unfold Resource.setattr_block, Resource.getattr_block in *.
  repeat (case_bool_decide; [subst; try done|]); try done.
  rewrite Hdel in Hex. simpl in Hex. unfold qd_keys in Hex.
  rewrite map_to_list_empty in Hex. done.
Qed.

(** X12: [cleanup_request] never creates a block: a request without a PUT
    (or DELETE) attribute still has none afterwards, whatever its other
    blocks hold. *)
Theorem cleanup_request_absent_blocks (request : HttpRequest) :
  (PUT request = None → PUT (Resource.cleanup_request request) = None)
  ∧ (DELETE request = None → DELETE (Resource.cleanup_request request) = None).
Proof.
  unfold Resource.cleanup_request. cbn [foldl]. split; intros H.
  - by do 4 apply cleanup_block_PUT_absent.
  - by do 4 apply cleanup_block_DELETE_absent.
Qed.

Lemma cleanup_request_absent_blocks_witness :
  PUT (Resource.cleanup_request Fixtures.signed_get) = None
  ∧ DELETE (Resource.cleanup_request Fixtures.signed_get) = None.
Proof.
  split.
  - apply (proj1 (cleanup_request_absent_blocks Fixtures.signed_get)). reflexivity.
  - apply (proj2 (cleanup_request_absent_blocks Fixtures.signed_get)). reflexivity.
Defined.

(** ** The error classifier *)

Section Classifier.
Context (env : Collaborators).

Lemma error_handler_classified (self : Resource.t) (e : Exn) (request : HttpRequest)
    (meth : HandlerMethod) (em : string) :
  classified e = true →
  ∃ r, Resource.error_handler env self e request meth em = pure (Response r)
       ∧ status_code r = match e with
                         | Http404 => 404
                         | HttpStatusCode response => status_code response
                         | _ => 400
                         end.
Proof.
  destruct e; intros [=]; eexists; (split; [reflexivity|reflexivity]).
Qed.



(** X14: for an argument fault with error display off, the response does
    not depend on the text of the exception, and for a method with a
    signature its body is the formatted message that ends with the
    signature. *)
Theorem error_handler_signature_mismatch (self : Resource.t) (text1 text2 : string)
    (request : HttpRequest) (meth : HandlerMethod) (em : string) :
  Resource.display_errors self = false →
  Resource.error_handler env self (TypeError text1) request meth em
  = Resource.error_handler env self (TypeError text2) request meth em
  ∧ (signature meth ≠ EmptyString →
     Resource.error_handler env self (TypeError text1) request meth em
     = pure (Response (set_content rc_BAD_REQUEST
          (format_error env
             ("Method signature does not match."
              +:+ String "010" (String "010" EmptyString)
              +:+ "Signature should be: " +:+ signature meth))))).
Proof.
  intros Hd. unfold Resource.error_handler. rewrite Hd. split; [reflexivity|].
  intros Hsig. by rewrite bool_decide_eq_true_2.
Qed.

End Classifier.

Lemma error_handler_signature_mismatch_witness :
  Resource.error_handler Fixtures.env Samples.quiet_resource
    (TypeError "read() takes exactly 2 arguments (1 given)")
    Fixtures.bare_get Samples.find_entry "json"
  = Resource.error_handler Fixtures.env Samples.quiet_resource
      (TypeError "other") Fixtures.bare_get Samples.find_entry "json"
  ∧ (signature Samples.find_entry ≠ EmptyString →
     Resource.error_handler Fixtures.env Samples.quiet_resource
       (TypeError "read() takes exactly 2 arguments (1 given)")
       Fixtures.bare_get Samples.find_entry "json"
     = pure (Response (set_content rc_BAD_REQUEST
          (format_error Fixtures.env
             ("Method signature does not match."
              +:+ String "010" (String "010" EmptyString)
              +:+ "Signature should be: " +:+ signature Samples.find_entry))))).
Proof.
  apply (error_handler_signature_mismatch Fixtures.env Samples.quiet_resource).
  reflexivity.
Defined.

(** ** The dispatcher: early exits and invocation *)

Lemma no_calls_nil {A} (m : M A) :
  calls_satisfy (λ _, False) m → invocations m.2 = [].
Proof.
  unfold calls_satisfy. destruct (invocations m.2) as [|r l]; [done|].
  intros H. by apply Forall_cons in H as [[] _].
Qed.

Lemma bind_log {A B} (m : M A) (k : A → M B) :
  (bind m k).2 = m.2 ++ match m.1 with
                        | Val a => (k a).2
                        | _ => []
                        end.
Proof.
  unfold bind. destruct m as [[a|r|e] t]; simpl; rewrite ?app_nil_r; try done.
  by destruct (k a) as [r t'].
Qed.

Lemma bind_invocations {A B} (m : M A) (k : A → M B) :
  invocations (bind m k).2
  = invocations m.2 ++ match m.1 with
                       | Val a => invocations (k a).2
                       | _ => []
                       end.
Proof.
  rewrite bind_log, invocations_app. by destruct m.1.
Qed.

Lemma elem_of_no_invocations (log : list Event) (ev : Event) :
  invocations log = [] → ev ∈ log → ∃ html, ev = Emailed html.
Proof.
  induction log as [|[r a k|h] log IH]; simpl; intros Hnil Hin.
  - by apply elem_of_nil in Hin.
  - done.
  - apply elem_of_cons in Hin as [->|Hin]; eauto.
Qed.

Section Dispatch.
Context (env : Collaborators).

Lemma call_log (self : Resource.t) (request : HttpRequest) (args : list string)
    (kwargs : gmap string string) :
  (Resource.__call__ env self request args kwargs).2
  = (Resource.call_body env self request args kwargs).2.
Proof.
  unfold Resource.__call__.
  by destruct (Resource.call_body env self request args kwargs) as [[?|?|?] ?].
Qed.

(** What follows the invocation in [call_body] calls no handler method. *)
Ltac after_invocation :=
  apply no_calls_nil;
  match goal with
  | |- calls_satisfy _ (match ?x with _ => _ end) =>
      destruct x as [[? ?]|]; [|constructor]
  end;
  apply calls_bind;
  [ match goal with
    | |- calls_satisfy _ (match ?result with _ => _ end) =>
        destruct result as [?|[? ? ? ? ?]]; [constructor|];
        apply calls_bind; [|intros ?; constructor];
        case_bool_decide; [|constructor];
        apply calls_bind; [constructor|intros ?; constructor]
    end
  | intros [[? ?] ?];
    apply calls_bind; [apply calls_first_render|intros [[? ?] ?]];
    apply calls_bind; [apply calls_apply_range|intros [? ?]];
    apply calls_emit_response ].

Lemma invoke_invocations (self : Resource.t) (meth : HandlerMethod)
    (request : HttpRequest) (args : list string) (kwargs : gmap string string)
    (em : string) :
  invocations (Resource.invoke env self meth request args kwargs em).2 = [request].
Proof.
  unfold Resource.invoke. rewrite bind_invocations. cbn [emit fst snd invocations].
  destruct (meth_call meth request args kwargs) as [e|v]; [|reflexivity].
  rewrite bind_invocations.
  rewrite (no_calls_nil _ (calls_error_handler _ env self e request meth em)).
  by destruct (Resource.error_handler env self e request meth em).1.
Qed.

(** X15: when authentication ends in [CHALLENGE], the outcome is the
    challenge's response; nothing is decoded and no method is invoked. *)
Theorem call_challenge (self : Resource.t) (request : HttpRequest)
    (args : list string) (kwargs : gmap string string) (c : HttpResponse) :
  Resource.authenticate env self (Resource.coerce_if_put env request)
    (Resource.request_method request) = (ActorChallenge c, CHALLENGE) →
  Resource.__call__ env self request args kwargs
  = (Returned (Resource.vary_on_headers env ["Authorization"] c), []).
Proof.
  intros Hauth. unfold Resource.__call__, Resource.call_body. by rewrite Hauth.
Qed.

(** X16: a verb the actor does not declare is answered with 405 and an
    Allow header listing the declared verbs, without invoking a method;
    this holds for the verbs of the call map as well. *)
Theorem call_method_not_allowed (self : Resource.t) (request : HttpRequest)
    (args : list string) (kwargs : gmap string string) (h : Handler.t) (b : bool)
    (request1 : HttpRequest) :
  Resource.authenticate env self (Resource.coerce_if_put env request)
    (Resource.request_method request) = (ActorHandler h, AnonFlag b) →
  Resource.translate_body env (Resource.request_method request)
    (Resource.coerce_if_put env request) = pure request1 →
  Resource.request_method request ∉ Handler.allowed_methods h →
  Resource.__call__ env self request args kwargs
  = (Returned (Resource.vary_on_headers env ["Authorization"]
                 (HttpResponseNotAllowed (Handler.allowed_methods h))), [])
  ∧ status_code (Resource.vary_on_headers env ["Authorization"]
                 (HttpResponseNotAllowed (Handler.allowed_methods h))) = 405
  ∧ headers (Resource.vary_on_headers env ["Authorization"]
                 (HttpResponseNotAllowed (Handler.allowed_methods h))) !! "Allow"
    = Some (join ", " (Handler.allowed_methods h)).
Proof.
  intros Hauth Hbody Hrm. split; [|split; [reflexivity|]].
  - unfold Resource.__call__, Resource.call_body. rewrite Hauth, Hbody.
    cbn [bind pure app]. by rewrite (bool_decide_eq_false_2 _ Hrm).
  - cbn. rewrite lookup_insert_ne by done. apply lookup_singleton_eq.
Qed.

(** X17: a declared verb for which the actor has no method (none in the call
    map, or the mapped method missing) raises [Http404] before anything is
    invoked. *)
Theorem call_method_missing (self : Resource.t) (request : HttpRequest)
    (args : list string) (kwargs : gmap string string) (h : Handler.t) (b : bool)
    (request1 : HttpRequest) :
  Resource.authenticate env self (Resource.coerce_if_put env request)
    (Resource.request_method request) = (ActorHandler h, AnonFlag b) →
  Resource.translate_body env (Resource.request_method request)
    (Resource.coerce_if_put env request) = pure request1 →
  Resource.request_method request ∈ Handler.allowed_methods h →
  Handler.getattr h (default EmptyString
                       (Resource.callmap !! Resource.request_method request))
  = None →
  Resource.__call__ env self request args kwargs = (Raised Http404, []).
Proof.
  intros Hauth Hbody Hrm Hmeth.
  unfold Resource.__call__, Resource.call_body. rewrite Hauth, Hbody.
  cbn [bind pure app]. rewrite (bool_decide_eq_true_2 _ Hrm). cbn [negb].
  by rewrite Hmeth.
Qed.

(** X18: an unregistered output format is answered with 400 and a body
    naming the format, but only after the handler method has been invoked
    once, with the sanitised request. *)
Theorem call_unknown_format (self : Resource.t) (request : HttpRequest)
    (args : list string) (kwargs : gmap string string) (h : Handler.t) (b : bool)
    (request1 : HttpRequest) (meth : HandlerMethod) (result : Value) :
  Resource.authenticate env self (Resource.coerce_if_put env request)
    (Resource.request_method request) = (ActorHandler h, AnonFlag b) →
  Resource.translate_body env (Resource.request_method request)
    (Resource.coerce_if_put env request) = pure request1 →
  Resource.request_method request ∈ Handler.allowed_methods h →
  Handler.getattr h (default EmptyString
                       (Resource.callmap !! Resource.request_method request))
  = Some meth →
  meth_call meth (Resource.cleanup_request request1) args
    (base.delete "emitter_format" kwargs) = inr result →
  Emitter_get env (Resource.determine_emitter request1 args kwargs) = None →
  Resource.__call__ env self request args kwargs
  = (Returned (Resource.vary_on_headers env ["Authorization"]
       (set_content rc_BAD_REQUEST
          ("Invalid output format specified '"
           +:+ Resource.determine_emitter request1 args kwargs +:+ "'."))),
     [Invoked (Resource.cleanup_request request1) args
        (base.delete "emitter_format" kwargs)]).
Proof.
  intros Hauth Hbody Hrm Hmeth Hcall Hem.
  unfold Resource.__call__, Resource.call_body. rewrite Hauth, Hbody.
  cbn [bind pure app]. rewrite (bool_decide_eq_true_2 _ Hrm). cbn [negb].
  rewrite Hmeth. unfold Resource.invoke. cbn [bind emit]. rewrite Hcall.
  cbn [pure app]. by rewrite Hem.
Qed.

(** X19: when the method has a signature and its result is a response,
    returned by the method or made by [error_handler] from a classified
    fault such as [Http404], line 201 reads the unbound [msg]: [__call__]
    raises [UnboundLocalError], whatever the error settings are. *)
Theorem call_response_with_signature (self : Resource.t) (request : HttpRequest)
    (args : list string) (kwargs : gmap string string) (h : Handler.t) (b : bool)
    (request1 : HttpRequest) (meth : HandlerMethod) (emitter : EmitterClass)
    (ct : string) :
  Resource.authenticate env self (Resource.coerce_if_put env request)
    (Resource.request_method request) = (ActorHandler h, AnonFlag b) →
  Resource.translate_body env (Resource.request_method request)
    (Resource.coerce_if_put env request) = pure request1 →
  Resource.request_method request ∈ Handler.allowed_methods h →
  Handler.getattr h (default EmptyString
                       (Resource.callmap !! Resource.request_method request))
  = Some meth →
  signature meth ≠ EmptyString →
  ((∃ r, meth_call meth (Resource.cleanup_request request1) args
           (base.delete "emitter_format" kwargs) = inr (Response r))
   ∨ (∃ e, meth_call meth (Resource.cleanup_request request1) args
           (base.delete "emitter_format" kwargs) = inl e ∧ classified e = true)) →
  Emitter_get env (Resource.determine_emitter request1 args kwargs)
  = Some (emitter, ct) →
  Resource.__call__ env self request args kwargs
  = (Raised (UnboundLocalError "msg"),
     [Invoked (Resource.cleanup_request request1) args
        (base.delete "emitter_format" kwargs)]).
Proof.
  intros Hauth Hbody Hrm Hmeth Hsig Hcall Hem.
  unfold Resource.__call__, Resource.call_body. rewrite Hauth, Hbody.
  cbn [bind pure app]. rewrite (bool_decide_eq_true_2 _ Hrm). cbn [negb].
  rewrite Hmeth. unfold Resource.invoke. cbn [bind emit].
  destruct Hcall as [[r Hcall]|(e & Hcall & Hclass)]; rewrite Hcall.
  - cbn [pure app]. rewrite Hem. destruct r. cbn [bind pure app].
    rewrite (bool_decide_eq_true_2 _ Hsig). reflexivity.
  - destruct (error_handler_classified env self e (Resource.cleanup_request request1)
                meth (Resource.determine_emitter request1 args kwargs) Hclass)
      as (r & -> & _).
    cbn [bind pure app]. rewrite Hem. destruct r. cbn [bind pure app].
    rewrite (bool_decide_eq_true_2 _ Hsig). reflexivity.
Qed.

(** X20: one call of the resource invokes the handler method at most once,
    and then with a request that went through [cleanup_request]. *)
Theorem call_invokes_at_most_once (self : Resource.t) (request : HttpRequest)
    (args : list string) (kwargs : gmap string string) :
  invocations (Resource.__call__ env self request args kwargs).2 = []
  ∨ ∃ r0, invocations (Resource.__call__ env self request args kwargs).2
          = [Resource.cleanup_request r0].
Proof.
  rewrite call_log. unfold Resource.call_body.
  destruct (Resource.authenticate _ _ _ _) as [actor [b|]].
  2:{ left. by destruct actor. }
  rewrite bind_invocations.
  rewrite (no_calls_nil _ (calls_translate_body _ env _ _)). cbn [app].
  destruct (Resource.translate_body env _ _).1 as [request1| |]; [|by left..].
  rewrite bind_invocations.
  destruct actor as [|h|c]; cbn [pure raise fst snd invocations app];
    [by left| |by left].
  destruct (negb _); [by left|].
  destruct (Handler.getattr _ _) as [meth|]; [|by left].
  right. exists request1. rewrite bind_invocations, invoke_invocations.
  destruct (Resource.invoke env self meth _ _ _ _).1 as [[result e]| |]; [|done..].
  cbn [app]. f_equal. after_invocation.
Qed.

(** X21: the handler method receives the route arguments unchanged and the
    keyword arguments without [emitter_format]. *)
Theorem call_passes_arguments (self : Resource.t) (request : HttpRequest)
    (args : list string) (kwargs : gmap string string)
    (r : HttpRequest) (a : list string) (k : gmap string string) :
  Invoked r a k ∈ (Resource.__call__ env self request args kwargs).2 →
  a = args ∧ k = base.delete "emitter_format" kwargs ∧ k !! "emitter_format" = None.
Proof.
  rewrite call_log. unfold Resource.call_body.
  assert (Hno : ∀ l : list Event, invocations l = [] → Invoked r a k ∈ l → False).
  { intros l Hl Hin. by destruct (elem_of_no_invocations l _ Hl Hin). }
  destruct (Resource.authenticate _ _ _ _) as [actor [b|]].
  2:{ destruct actor; intros Hin; by apply elem_of_nil in Hin. }
  rewrite bind_log. intros [Hin|Hin]%elem_of_app.
  { apply Hno in Hin; [done|]. apply no_calls_nil, calls_translate_body. }
  destruct (Resource.translate_body env _ _).1 as [request1| |];
    [|by apply elem_of_nil in Hin..].
  rewrite bind_log in Hin.
  destruct actor as [|h|c]; cbn [pure raise fst snd app] in Hin;
    [by apply elem_of_nil in Hin| |by apply elem_of_nil in Hin].
  destruct (negb _); [by apply elem_of_nil in Hin|].
  destruct (Handler.getattr _ _) as [meth|]; [|by apply elem_of_nil in Hin].
  rewrite bind_log in Hin. apply elem_of_app in Hin as [Hin|Hin].
  - unfold Resource.invoke in Hin. rewrite bind_log in Hin.
    cbn [emit fst snd app] in Hin. apply elem_of_cons in Hin as [[= -> -> ->]|Hin].
    { split; [done|]. split; [done|]. apply lookup_delete_eq. }
    exfalso. destruct (meth_call _ _ _ _) as [e|v]; [|by apply elem_of_nil in Hin].
    apply Hno in Hin; [done|]. apply no_calls_nil.
    apply calls_bind; [apply calls_error_handler|intros ?; apply calls_pure].
  - exfalso.
    destruct (Resource.invoke env self meth _ _ _ _).1 as [[result e]| |];
      [|by apply elem_of_nil in Hin..].
    apply Hno in Hin; [done|]. after_invocation.
Qed.

End Dispatch.

Lemma call_challenge_witness :
  Resource.__call__ Fixtures.env Fixtures.guarded_resource Fixtures.bare_get [] ∅
  = (Returned (Resource.vary_on_headers Fixtures.env ["Authorization"]
                 (Fixtures.http_401 "Basic")), []).
Proof.
  apply (call_challenge Fixtures.env Fixtures.guarded_resource Fixtures.bare_get [] ∅
           (Fixtures.http_401 "Basic")).
  reflexivity.
Defined.

Lemma call_method_not_allowed_witness :
  Resource.__call__ Fixtures.env (Fixtures.open_resource Fixtures.object_handler)
    Samples.delete_request [] ∅
  = (Returned (Resource.vary_on_headers Fixtures.env ["Authorization"]
                 (HttpResponseNotAllowed (Handler.allowed_methods Fixtures.object_handler))),
     [])
  ∧ status_code (Resource.vary_on_headers Fixtures.env ["Authorization"]
                 (HttpResponseNotAllowed (Handler.allowed_methods Fixtures.object_handler)))
    = 405
  ∧ headers (Resource.vary_on_headers Fixtures.env ["Authorization"]
               (HttpResponseNotAllowed (Handler.allowed_methods Fixtures.object_handler)))
      !! "Allow"
    = Some (join ", " (Handler.allowed_methods Fixtures.object_handler)).
Proof.
  apply (call_method_not_allowed Fixtures.env
           (Fixtures.open_resource Fixtures.object_handler) Samples.delete_request [] ∅
           Fixtures.object_handler false Samples.delete_request).
  - reflexivity.
  - reflexivity.
  - vm_compute. intros Hin.
    repeat (apply elem_of_cons in Hin as [Hin|Hin]; [discriminate Hin|]).
    by apply elem_of_nil in Hin.
Defined.

Lemma call_method_missing_witness :
  Resource.__call__ Fixtures.env (Fixtures.open_resource Samples.stub_handler)
    Samples.delete_request [] ∅
  = (Raised Http404, []).
Proof.
  apply (call_method_missing Fixtures.env (Fixtures.open_resource Samples.stub_handler)
           Samples.delete_request [] ∅ Samples.stub_handler false Samples.delete_request).
  - reflexivity.
  - reflexivity.
  - vm_compute. repeat constructor.
  - reflexivity.
Defined.

Lemma call_unknown_format_witness :
  Resource.__call__ Fixtures.env (Fixtures.open_resource Fixtures.object_handler)
    Samples.xml_get [] ∅
  = (Returned (Resource.vary_on_headers Fixtures.env ["Authorization"]
       (set_content rc_BAD_REQUEST
          ("Invalid output format specified '"
           +:+ Resource.determine_emitter Samples.xml_get [] ∅ +:+ "'."))),
     [Invoked (Resource.cleanup_request Samples.xml_get) []
        (base.delete "emitter_format" ∅)]).
Proof.
  apply (call_unknown_format Fixtures.env
           (Fixtures.open_resource Fixtures.object_handler) Samples.xml_get [] ∅
           Fixtures.object_handler false Samples.xml_get Fixtures.read_object
           (Plain (DObj "entry"))).
  - reflexivity.
  - reflexivity.
  - vm_compute. repeat constructor.
  - reflexivity.
  - reflexivity.
  - reflexivity.
Defined.

Lemma call_response_with_signature_witness :
  Resource.__call__ Fixtures.env (Fixtures.open_resource Samples.lookup_handler)
    Fixtures.bare_get [] ∅
  = (Raised (UnboundLocalError "msg"),
     [Invoked (Resource.cleanup_request Fixtures.bare_get) []
        (base.delete "emitter_format" ∅)]).
Proof.
  apply (call_response_with_signature Fixtures.env
           (Fixtures.open_resource Samples.lookup_handler) Fixtures.bare_get [] ∅
           Samples.lookup_handler false Fixtures.bare_get Samples.find_entry
           Fixtures.json_emitter "application/json").
  - reflexivity.
  - reflexivity.
  - vm_compute. repeat constructor.
  - reflexivity.
  - discriminate.
  - right. exists Http404. split; reflexivity.
  - reflexivity.
Defined.

Lemma call_passes_arguments_witness :
  ["7"] = ["7"]
  ∧ (∅ : gmap string string)
    = base.delete "emitter_format" ({[ "emitter_format" := "json" ]} : gmap string string)
  ∧ (∅ : gmap string string) !! "emitter_format" = None.
Proof.
  apply (call_passes_arguments Fixtures.env
           (Fixtures.open_resource Fixtures.object_handler) Fixtures.bare_get ["7"]
           {[ "emitter_format" := "json" ]} Fixtures.bare_get).
  vm_compute. left.
Defined.

(** ** The range header *)

Lemma string_app_nil_r (s : string) : s +:+ EmptyString = s.
Proof.
  induction s as [|c s IH]; [done|].
  change (String c (s +:+ EmptyString) = String c s). by f_equal.
Qed.

Lemma is_digit_not_space (c : ascii) : is_digit c = true → is_space c = false.
Proof.
  unfold is_digit, is_space. intros H.
  apply andb_true_iff in H as [H1 H2].
  apply Nat.leb_le in H1, H2.
  apply orb_false_iff. split.
  - apply Nat.eqb_neq. lia.
  - apply andb_false_iff. right. apply Nat.leb_gt. lia.
Qed.

Lemma span_digits_split (s : string) :
  s = (span_digits s).1 +:+ (span_digits s).2 ∧ all_digits (span_digits s).1 = true.
Proof.
  induction s as [|c s [IH1 IH2]]; [done|]. simpl.
  destruct (is_digit c) eqn:Hc; [|done].
  destruct (span_digits s) as [ds rest]. simpl in *. rewrite Hc, IH2. split; [|done].
  by rewrite IH1 at 1.
Qed.

Lemma span_digits_app (g rest : string) :
  all_digits g = true →
  match rest with EmptyString => True | String c _ => is_digit c = false end →
  span_digits (g +:+ rest) = (g, rest).
Proof.
  intros Hg Hrest. induction g as [|c g IH]; simpl in *.
  - destruct rest as [|c r]; [done|]. simpl. by rewrite Hrest.
  - apply andb_true_iff in Hg as [Hc Hg]. by rewrite Hc, IH.
Qed.

Lemma span_digits_digits (g : string) :
  all_digits g = true → span_digits g = (g, EmptyString).
Proof.
  intros Hg. rewrite <- (string_app_nil_r g) at 1. by apply span_digits_app.
Qed.

Lemma drop_prefix_app (p s : string) : drop_prefix p (p +:+ s) = Some s.
Proof.
  induction p as [|c p IH]; simpl; [by destruct s|]. by rewrite Ascii.eqb_refl.
Qed.

Lemma startswith_app (p s : string) : startswith (p +:+ s) p = true.
Proof.
  unfold startswith. induction p as [|c p IH]; [by destruct s|].
  change (String c p +:+ s) with (String c (p +:+ s)). cbn [String.prefix].
  by destruct (ascii_dec c c).
Qed.

Lemma drop_prefix_Some (p s rest : string) :
  drop_prefix p s = Some rest → s = p +:+ rest.
Proof.
  revert s. induction p as [|c p IH]; intros s; simpl.
  - by destruct s; intros [= <-].
  - destruct s as [|b s]; [done|]. destruct (Ascii.eqb_spec c b) as [->|]; [|done].
    intros H. by rewrite (IH _ H).
Qed.

Lemma range_re_match_digits (g1 g2 : string) :
  all_digits g1 = true → all_digits g2 = true →
  range_re_match ("items=" +:+ g1 +:+ "-" +:+ g2) = Some (g1, g2).
Proof.
  intros H1 H2. unfold range_re_match.
  rewrite (drop_prefix_app "items=").
  change ("-" +:+ g2) with (String "-"%char g2).
  rewrite (span_digits_app g1 (String "-"%char g2)) by done.
  rewrite (span_digits_digits g2 H2).
  rewrite bool_decide_eq_true_2; [done|by left].
Qed.

Lemma range_re_match_groups (h g1 g2 : string) :
  range_re_match h = Some (g1, g2) →
  all_digits g1 = true ∧ all_digits g2 = true
  ∧ (h = "items=" +:+ g1 +:+ "-" +:+ g2
     ∨ h = "items=" +:+ g1 +:+ "-" +:+ g2 +:+ String "010" EmptyString).
Proof.
  unfold range_re_match.
  destruct (drop_prefix "items=" h) as [rest|] eqn:Hp; [|done].
  apply drop_prefix_Some in Hp as ->.
  destruct (span_digits_split rest) as [Hrest Hd1].
  destruct (span_digits rest) as [d1 rest1]. simpl in *.
  destruct rest1 as [|c rest2]; [done|].
  destruct (Ascii.eqb_spec c "-"%char) as [->|Hne].
  2:{ destruct c as [[] [] [] [] [] [] [] []]; try done. }
  destruct (span_digits_split rest2) as [Hrest2 Hd2].
  destruct (span_digits rest2) as [d2 rest3]. simpl in *.
  case_bool_decide as Hend; [|done]. intros [= <- <-].
  split; [done|split; [done|]]. subst rest.
  destruct Hend as [->| ->]; [left|right]; rewrite Hrest2; [|done].
  by rewrite string_app_nil_r.
Qed.

(** X22: [range_re] accepts every string made of items=, digits, a dash and
    digits (either run possibly empty), and its groups are the two runs. *)
Theorem range_re_match_complete (g1 g2 : string) :
  all_digits g1 = true → all_digits g2 = true →
  range_re_match ("items=" +:+ g1 +:+ "-" +:+ g2) = Some (g1, g2).
Proof. intros H1 H2. by apply range_re_match_digits. Qed.

Lemma range_re_match_complete_witness :
  range_re_match ("items=" +:+ "7" +:+ "-" +:+ EmptyString) = Some ("7", EmptyString).
Proof. apply (range_re_match_complete "7" EmptyString); reflexivity. Defined.

(** X23: [range_re] accepts nothing else: when it matches, both groups are
    runs of digits and the string is items=, the first group, a dash and the
    second group, followed by at most one newline. *)
Theorem range_re_match_sound (h g1 g2 : string) :
  range_re_match h = Some (g1, g2) →
  all_digits g1 = true ∧ all_digits g2 = true
  ∧ (h = "items=" +:+ g1 +:+ "-" +:+ g2
     ∨ h = "items=" +:+ g1 +:+ "-" +:+ g2 +:+ String "010" EmptyString).
Proof. apply range_re_match_groups. Qed.

Lemma range_re_match_sound_witness :
  all_digits "7" = true ∧ all_digits "45" = true
  ∧ ("items=7-45" = "items=" +:+ "7" +:+ "-" +:+ "45"
     ∨ "items=7-45" = "items=" +:+ "7" +:+ "-" +:+ "45" +:+ String "010" EmptyString).
Proof. apply (range_re_match_sound "items=7-45" "7" "45"). reflexivity. Defined.

Lemma all_digits_rev_app (s1 s2 : string) :
  all_digits (String.rev_app s1 s2) = all_digits s1 && all_digits s2.
Proof.
  revert s2. induction s1 as [|c s1 IH]; intros s2; [done|].
  cbn [String.rev_app all_digits]. rewrite IH. cbn [all_digits].
  destruct (is_digit c), (all_digits s1); done.
Qed.

Lemma lstrip_digits (g : string) : all_digits g = true → lstrip g = g.
Proof.
  destruct g as [|c g]; [done|]. cbn [all_digits lstrip].
  intros [Hc _]%andb_true_iff. by rewrite (is_digit_not_space c Hc).
Qed.

Lemma rev_app_rev_app (s1 s2 s3 : string) :
  String.rev_app (String.rev_app s1 s2) s3 = String.rev_app s2 (s1 +:+ s3).
Proof.
  revert s2. induction s1 as [|c s1 IH]; intros s2; [done|].
  cbn [String.rev_app]. by rewrite IH.
Qed.

Lemma strip_digits (g : string) : all_digits g = true → strip g = g.
Proof.
  intros Hg. unfold strip, String.rev. rewrite (lstrip_digits g Hg).
  rewrite lstrip_digits by (by rewrite all_digits_rev_app, Hg).
  rewrite rev_app_rev_app. cbn [String.rev_app]. apply string_app_nil_r.
Qed.

Lemma digits_value_digits (g : string) (acc : Z) :
  all_digits g = true → 0 ≤ acc → ∃ n, digits_value acc g = Some n ∧ 0 ≤ n.
Proof.
  revert acc. induction g as [|c g IH]; intros acc Hg Hacc; [by exists acc|].
  cbn [all_digits] in Hg. apply andb_true_iff in Hg as [Hc Hg].
  cbn [digits_value]. rewrite Hc. apply IH; [done|].
  unfold is_digit in Hc. apply andb_true_iff in Hc as [H1 _].
  apply Nat.leb_le in H1. lia.
Qed.

(** [int] on a run of digits: never a [ValueError], never negative. *)
Lemma int_digits (g : string) :
  all_digits g = true → g ≠ EmptyString → ∃ n, int g = Some n ∧ 0 ≤ n.
Proof.
  intros Hg Hne. unfold int. rewrite (strip_digits g Hg).
  destruct (digits_value_digits g 0 Hg) as (n & Hn & Hpos); [lia|].
  exists n. split; [|done].
  destruct g as [|c g]; [done|].
  cbn [all_digits] in Hg. apply andb_true_iff in Hg as [Hc _].
  destruct c as [[] [] [] [] [] [] [] []]; try discriminate Hc; exact Hn.
Qed.

Lemma group_int_digits (g : string) :
  all_digits g = true →
  Resource.group_int g = pure (if bool_decide (g = EmptyString) then None else int g)
  ∧ (g ≠ EmptyString → ∃ n, int g = Some n ∧ 0 ≤ n).
Proof.
  intros Hg. split; [|by apply int_digits].
  unfold Resource.group_int. case_bool_decide as Hne.
  - destruct (int_digits g Hg Hne) as (n & Hn & Hpos). rewrite Hn.
    by rewrite bool_decide_eq_false_2.
  - by rewrite bool_decide_eq_true_2.
Qed.

Section RangeHeader.
Context (self : Resource.t) (request : HttpRequest).

(** X24: a range header that, once stripped, reads items=, digits, a dash
    and digits is parsed into the two numbers, an empty run giving an absent
    bound; the numbers are never negative, and the paging parameters of the
    query string play no part. *)
Theorem request_range_header (v g1 g2 : string) :
  META request !! "HTTP_RANGE" = Some v →
  strip v = "items=" +:+ g1 +:+ "-" +:+ g2 →
  all_digits g1 = true → all_digits g2 = true →
  Resource.request_range_of self request
  = pure (Some (if bool_decide (g1 = EmptyString) then None else int g1,
                if bool_decide (g2 = EmptyString) then None else int g2))
  ∧ (g1 ≠ EmptyString → ∃ n, int g1 = Some n ∧ 0 ≤ n)
  ∧ (g2 ≠ EmptyString → ∃ n, int g2 = Some n ∧ 0 ≤ n).
Proof.
  intros Hmeta Hstrip H1 H2.
  destruct (group_int_digits g1 H1) as [Hg1 Hn1].
  destruct (group_int_digits g2 H2) as [Hg2 Hn2].
  split; [|done].
  unfold Resource.request_range_of. rewrite Hmeta, Hstrip.
  rewrite (startswith_app "items="), (range_re_match_digits g1 g2 H1 H2).
  by rewrite Hg1, Hg2.
Qed.

(** The header and paging parsing never raises. *)
Lemma request_range_of_outcome :
  Resource.request_range_of self request
  = return_ (write rc_BAD_REQUEST " malformed range header")
  ∨ ∃ v, Resource.request_range_of self request = pure v.
Proof.
  unfold Resource.request_range_of.
  destruct (META request !! "HTTP_RANGE") as [v|].
  - destruct (startswith _ _); [|right; eauto].
    destruct (range_re_match (strip v)) as [[g1 g2]|] eqn:Hm; [|by left].
    apply range_re_match_groups in Hm as (H1 & H2 & _).
    destruct (group_int_digits g1 H1) as [-> _].
    destruct (group_int_digits g2 H2) as [-> _].
    right. eauto.
  - destruct (_ && _); [|right; eauto].
    destruct (qd_int _ _), (qd_int _ _); right; eauto.
Qed.

(** X25: range handling never raises: whatever the header, the query
    string and the result are, it either goes on with a result or returns a
    response with status 400 (malformed header) or 416 (range refused). *)
Theorem apply_range_never_raises (result : Data) :
  (∃ v, Resource.apply_range self request result = pure v)
  ∨ (∃ r, Resource.apply_range self request result = return_ r
          ∧ (status_code r = 400 ∨ status_code r = 416)).
Proof.
  unfold Resource.apply_range. destruct result; try (left; eauto; fail).
  destruct request_range_of_outcome as [->|[v ->]].
  { right. eexists. split; [reflexivity|by left]. }
  cbn [bind pure app]. destruct v as [[rs re]|]; [|left; eauto].
  destruct (get_range rs re (Z.of_nat (length rows))) as [e|[s e]] eqn:Hr.
  - apply get_range_errors in Hr as [value ->].
    right. eexists. split; [reflexivity|by right].
  - cbn [lift bind pure app try_except]. rewrite (get_range_slice_ok _ _ _ _ _ Hr).
    left. eauto.
Qed.

End RangeHeader.

Lemma request_range_header_witness :
  Resource.request_range_of (Fixtures.open_resource Fixtures.rows_handler)
    Samples.items_get
  = pure (Some (if bool_decide ("7" = EmptyString) then None else int "7",
                if bool_decide ("45" = EmptyString) then None else int "45"))
  ∧ ("7" ≠ EmptyString → ∃ n, int "7" = Some n ∧ 0 ≤ n)
  ∧ ("45" ≠ EmptyString → ∃ n, int "45" = Some n ∧ 0 ≤ n).
Proof.
  apply (request_range_header (Fixtures.open_resource Fixtures.rows_handler)
           Samples.items_get " items=7-45 " "7" "45"); reflexivity.
Defined.

(** ** Paging parameters and the partial response *)

Section Paging.
Context (self : Resource.t) (request : HttpRequest) (rows : list string).

Lemma qd_int_contains (q : gmap string (list string)) (k : string) (n : Z) :
  qd_int q k = Some n → qd_contains q k = true.
Proof.
  unfold qd_int, qd_contains. destruct (q !! k); [|done].
  intros _. by apply bool_decide_eq_true_2.
Qed.

Lemma request_range_paging (offset limit : option Z) :
  META request !! "HTTP_RANGE" = None →
  qd_contains (GET request) (Resource.paging_offset self) = true →
  qd_contains (GET request) (Resource.paging_limit self) = true →
  qd_int (GET request) (Resource.paging_offset self) = offset →
  qd_int (GET request) (Resource.paging_limit self) = limit →
  Resource.request_range_of self request
  = pure match offset, limit with
         | Some o, Some l => Some (Some o, Some (o + l - 1))
         | Some o, None => Some (Some o, None)
         | None, Some l => Some (None, Some l)
         | None, None => None
         end.
Proof.
  intros Hmeta Ho Hl <- <-. unfold Resource.request_range_of.
  rewrite Hmeta, Ho, Hl. cbn [andb].
  by destruct (qd_int _ _), (qd_int _ _).
Qed.

Lemma apply_range_resolved (rs re : option Z) (s e : Z) :
  Resource.request_range_of self request = pure (Some (rs, re)) →
  get_range rs re (Z.of_nat (length rows)) = inr (s, e) →
  Resource.apply_range self request (DQuerySet rows)
  = pure (DQuerySet (take (Z.to_nat (e - s + 1)) (drop (Z.to_nat s) rows)),
          Some (Resource.content_range_text s e (Z.of_nat (length rows)))).
Proof.
  intros Hreq Hr. unfold Resource.apply_range. rewrite Hreq.
  cbn [bind pure app]. rewrite Hr. cbn [lift bind pure app try_except].
  by rewrite (get_range_slice_ok _ _ _ _ _ Hr).
Qed.

Lemma apply_range_refused (rs re : option Z) (value : string) :
  Resource.request_range_of self request = pure (Some (rs, re)) →
  get_range rs re (Z.of_nat (length rows)) = inl (BadRangeException value) →
  Resource.apply_range self request (DQuerySet rows)
  = return_ (write rc_BAD_RANGE (String "010" value)).
Proof.
  intros Hreq Hr. unfold Resource.apply_range. rewrite Hreq.
  cbn [bind pure app]. by rewrite Hr.
Qed.

(** X26: without a range header, an offset o inside the collection and a
    limit l of at least one select the rows o, ..., o + l - 1 that exist,
    and the content range runs from o to the smaller of o + l - 1 and the
    last index. *)
Theorem apply_range_offset_limit (o l : Z) :
  META request !! "HTTP_RANGE" = None →
  qd_int (GET request) (Resource.paging_offset self) = Some o →
  qd_int (GET request) (Resource.paging_limit self) = Some l →
  0 ≤ o < Z.of_nat (length rows) → 1 ≤ l →
  Resource.apply_range self request (DQuerySet rows)
  = pure (DQuerySet (take (Z.to_nat l) (drop (Z.to_nat o) rows)),
          Some (Resource.content_range_text o
                  (Z.min (o + l - 1) (Z.of_nat (length rows) - 1))
                  (Z.of_nat (length rows)))).
Proof.
  intros Hmeta Ho Hl Hrange Hlim.
  rewrite (apply_range_resolved (Some o) (Some (o + l - 1)) o
             (Z.min (o + l - 1) (Z.of_nat (length rows) - 1))).
  - do 3 f_equal.
    destruct (Z.le_gt_cases (o + l - 1) (Z.of_nat (length rows) - 1)).
    + rewrite Z.min_l by done. f_equal. lia.
    + rewrite Z.min_r by lia.
      rewrite !take_ge; [done|rewrite length_drop; lia..].
  - by apply (request_range_paging (Some o) (Some l));
      [|eapply qd_int_contains|eapply qd_int_contains| |].
  - unfold get_range, get_range_locals. range_cases; simpl; try lia.
    + by rewrite Z.min_r by lia.
    + by rewrite Z.min_l by lia.
Qed.

(** X27: without a range header, a negative offset, an offset past the last
    row or a limit below one is answered with 416 and the reason on a new
    line of the body. *)
Theorem apply_range_offset_limit_refused (o l : Z) :
  META request !! "HTTP_RANGE" = None →
  qd_int (GET request) (Resource.paging_offset self) = Some o →
  qd_int (GET request) (Resource.paging_limit self) = Some l →
  o < 0 ∨ Z.of_nat (length rows) ≤ o ∨ l ≤ 0 →
  ∃ value,
    Resource.apply_range self request (DQuerySet rows)
    = return_ (write rc_BAD_RANGE (String "010" value))
    ∧ status_code (write rc_BAD_RANGE (String "010" value)) = 416.
Proof.
  intros Hmeta Ho Hl Hbad.
  assert (Hreq : Resource.request_range_of self request
                 = pure (Some (Some o, Some (o + l - 1)))).
  { by apply (request_range_paging (Some o) (Some l));
      [|eapply qd_int_contains|eapply qd_int_contains| |]. }
  destruct (get_range (Some o) (Some (o + l - 1)) (Z.of_nat (length rows)))
    as [e|[s e]] eqn:Hr.
  - destruct (get_range_errors _ _ _ _ Hr) as [value ->].
    exists value. split; [|done]. by apply (apply_range_refused _ _ _ Hreq).
  - exfalso. revert Hr. unfold get_range, get_range_locals.
    range_cases; simpl; intros [=]; lia.
Qed.

(** X28: an offset with a limit that is present but not a number (as in
    offset=n and an empty limit) selects the rows from the offset to the
    end. *)
Theorem apply_range_offset_only (o : Z) :
  META request !! "HTTP_RANGE" = None →
  qd_int (GET request) (Resource.paging_offset self) = Some o →
  qd_contains (GET request) (Resource.paging_limit self) = true →
  qd_int (GET request) (Resource.paging_limit self) = None →
  0 ≤ o < Z.of_nat (length rows) →
  Resource.apply_range self request (DQuerySet rows)
  = pure (DQuerySet (drop (Z.to_nat o) rows),
          Some (Resource.content_range_text o (Z.of_nat (length rows) - 1)
                  (Z.of_nat (length rows)))).
Proof.
  intros Hmeta Ho Hc Hl Hrange.
  rewrite (apply_range_resolved (Some o) None o (Z.of_nat (length rows) - 1)).
  - do 3 f_equal. apply take_ge. rewrite length_drop. lia.
  - by apply (request_range_paging (Some o) None); [|eapply qd_int_contains| | |].
  - unfold get_range, get_range_locals. range_cases; simpl; try lia. done.
Qed.

(** X29: a limit n with an offset that is present but not a number (as in
    an empty offset and limit=n) selects the trailing n rows, all rows when
    n exceeds their number. *)
Theorem apply_range_limit_only (n : Z) :
  META request !! "HTTP_RANGE" = None →
  qd_contains (GET request) (Resource.paging_offset self) = true →
  qd_int (GET request) (Resource.paging_offset self) = None →
  qd_int (GET request) (Resource.paging_limit self) = Some n →
  0 ≤ n →
  Resource.apply_range self request (DQuerySet rows)
  = pure (DQuerySet (drop (length rows - Z.to_nat n) rows),
          Some (Resource.content_range_text
                  (Z.max 0 (Z.of_nat (length rows) - n))
                  (Z.of_nat (length rows) - 1) (Z.of_nat (length rows)))).
Proof.
  intros Hmeta Hc Ho Hl Hn.
  rewrite (apply_range_resolved None (Some n) (Z.max 0 (Z.of_nat (length rows) - n))
             (Z.of_nat (length rows) - 1)).
  - do 3 f_equal. rewrite take_ge by (rewrite length_drop; lia). f_equal. lia.
  - by apply (request_range_paging None (Some n)); [| |eapply qd_int_contains| |].
  - unfold get_range, get_range_locals. range_cases; simpl; try lia;
      do 2 f_equal; lia.
Qed.

End Paging.

Section Emission.
Context (env : Collaborators).

(** X30: with a content range, the final emission answers 206 with the
    Content-Range header set to it and the streaming flag of the resource,
    whatever status was carried over and even when the serializer hands
    back a response of its own. *)
Theorem emit_response_partial (self : Resource.t) (request : HttpRequest)
    (handler : Handler.t) (anonymous : Anonymity) (em : string) (result : Data)
    (sc : Z) (cr : string) (emitter : EmitterClass) (ct : string) (stream : Stream) :
  Emitter_get env em = Some (emitter, ct) →
  cr ≠ EmptyString →
  (∀ fields,
     (if Resource.stream self
      then stream_render (emitter result (typemapper env) handler fields anonymous) request
      else render (emitter result (typemapper env) handler fields anonymous) request)
     = inr stream) →
  ∃ resp,
    Resource.emit_response env self request handler anonymous em result sc (Some cr)
    = return_ resp
    ∧ status_code resp = 206
    ∧ headers resp !! "Content-Range" = Some cr
    ∧ streaming resp = Resource.stream self
    ∧ _container resp = _container (Resource.response_of_stream stream ct sc).
Proof.
  intros Hem Hcr Hrender. unfold Resource.emit_response. rewrite Hem, Hrender.
  rewrite (bool_decide_eq_true_2 _ Hcr).
  eexists. split; [reflexivity|]. cbn. split; [done|].
  split; [apply lookup_insert_eq|done].
Qed.

End Emission.

Lemma apply_range_offset_limit_witness :
  Resource.apply_range (Fixtures.open_resource Fixtures.rows_handler)
    Fixtures.paged_get (DQuerySet Fixtures.rows100)
  = pure (DQuerySet (take (Z.to_nat 5) (drop (Z.to_nat 10) Fixtures.rows100)),
          Some (Resource.content_range_text 10
                  (Z.min (10 + 5 - 1) (Z.of_nat (length Fixtures.rows100) - 1))
                  (Z.of_nat (length Fixtures.rows100)))).
Proof.
  apply (apply_range_offset_limit (Fixtures.open_resource Fixtures.rows_handler)
           Fixtures.paged_get Fixtures.rows100 10 5).
  - reflexivity.
  - reflexivity.
  - reflexivity.
  - vm_compute. split; [discriminate|reflexivity].
  - lia.
Defined.

Lemma apply_range_offset_limit_refused_witness :
  ∃ value,
    Resource.apply_range (Fixtures.open_resource Fixtures.rows_handler)
      Samples.empty_page_get (DQuerySet Fixtures.rows100)
    = return_ (write rc_BAD_RANGE (String "010" value))
    ∧ status_code (write rc_BAD_RANGE (String "010" value)) = 416.
Proof.
  apply (apply_range_offset_limit_refused
           (Fixtures.open_resource Fixtures.rows_handler)
           Samples.empty_page_get Fixtures.rows100 10 0).
  - reflexivity.
  - reflexivity.
  - reflexivity.
  - right. right. lia.
Defined.

Lemma apply_range_offset_only_witness :
  Resource.apply_range (Fixtures.open_resource Fixtures.rows_handler)
    Samples.tail_from_get (DQuerySet Fixtures.rows100)
  = pure (DQuerySet (drop (Z.to_nat 90) Fixtures.rows100),
          Some (Resource.content_range_text 90
                  (Z.of_nat (length Fixtures.rows100) - 1)
                  (Z.of_nat (length Fixtures.rows100)))).
Proof.
  apply (apply_range_offset_only (Fixtures.open_resource Fixtures.rows_handler)
           Samples.tail_from_get Fixtures.rows100 90).
  - reflexivity.
  - reflexivity.
  - reflexivity.
  - reflexivity.
  - vm_compute. split; [discriminate|reflexivity].
Defined.

Lemma apply_range_limit_only_witness :
  Resource.apply_range (Fixtures.open_resource Fixtures.rows_handler)
    Samples.last_rows_get (DQuerySet Fixtures.rows100)
  = pure (DQuerySet (drop (length Fixtures.rows100 - Z.to_nat 3) Fixtures.rows100),
          Some (Resource.content_range_text
                  (Z.max 0 (Z.of_nat (length Fixtures.rows100) - 3))
                  (Z.of_nat (length Fixtures.rows100) - 1)
                  (Z.of_nat (length Fixtures.rows100)))).
Proof.
  apply (apply_range_limit_only (Fixtures.open_resource Fixtures.rows_handler)
           Samples.last_rows_get Fixtures.rows100 3).
  - reflexivity.
  - reflexivity.
  - reflexivity.
  - reflexivity.
  - lia.
Defined.

Lemma emit_response_partial_witness :
  ∃ resp,
    Resource.emit_response Fixtures.env (Fixtures.open_resource Fixtures.rows_handler)
      Fixtures.paged_get Fixtures.rows_handler (AnonFlag false) "json"
      (DQuerySet ["10"; "11"]) 200 (Some "items 10-11/100")
    = return_ resp
    ∧ status_code resp = 206
    ∧ headers resp !! "Content-Range" = Some "items 10-11/100"
    ∧ streaming resp = Resource.stream (Fixtures.open_resource Fixtures.rows_handler)
    ∧ _container resp
      = _container (Resource.response_of_stream (SText "[10, 11]") "application/json" 200).
Proof.
  apply (emit_response_partial Fixtures.env
           (Fixtures.open_resource Fixtures.rows_handler) Fixtures.paged_get
           Fixtures.rows_handler (AnonFlag false) "json" (DQuerySet ["10"; "11"]) 200
           "items 10-11/100" Fixtures.json_emitter "application/json"
           (SText "[10, 11]")).
  - reflexivity.
  - discriminate.
  - intros fields. reflexivity.
Defined.
